(** * Tournament scoring: scoring table, standings, upload guards, login flow

    A shallow embedding of the React components of the tournament scoring
    application (PlayerDashboard, AdminDashboard, ScreenshotVerification,
    Auth) and of the [match_screenshots.day] migration, with the properties
    of the scoring computation, of the standings aggregation, of the upload
    handler and of the access-code login proved about the embedding.

    Conventions of the embedding:
    - a JavaScript [number] holding an integer is a [Z]; the components only
      add and compare such numbers, which is exact on the safe-integer range;
    - a SQL NULL, and a JavaScript [null] or [undefined] where the code
      treats the two alike ([x || 0], a dictionary lookup), is [None]; where
      the code tells them apart (the [=== null] tests on the analysis
      result), they are the two constructors [field_null] and
      [field_undefined] of [Field];
    - a JavaScript object used as a dictionary is a [gmap];
    - the hosted backend (tables, storage bucket, auth session) is an explicit
      state, and what the backend answers to a call (an error or not, the
      analysis result, the clock) is an input of the handler. *)

From stdpp Require Import gmap strings list fin_maps pretty.

Local Open Scope Z_scope.

(** ** JavaScript primitives used by the components *)
Module Js.

(** Truthiness of a number: every number but 0 (and NaN, which does not
    occur among integers). *)
Definition truthy (v : Z) : bool := negb (v =? 0).

(** [x || 0] for [x : number | null | undefined]. *)
Definition or0 (x : option Z) : Z :=
  match x with
  | Some v => if truthy v then v else 0
  | None => 0
  end.

(** [!s] for a string [s]: only the empty string is falsy. *)
Definition str_falsy (s : string) : bool :=
  match s with
  | EmptyString => true
  | String _ _ => false
  end.

(** [s.startsWith(p)]. *)
Definition startsWith (s p : string) : bool := String.prefix p s.

(** [s.split(".").pop()]: the text after the last dot, the whole string
    when it has no dot.  [acc] is the segment read so far. *)
Fixpoint split_dot_pop_from (acc s : string) : string :=
  match s with
  | EmptyString => acc
  | String c s' =>
      if String.eqb (String c EmptyString) "." then split_dot_pop_from EmptyString s'
      else split_dot_pop_from (acc +:+ String c EmptyString) s'
  end.

Definition split_dot_pop (s : string) : string :=
  split_dot_pop_from EmptyString s.

(** The value of a decimal digit. *)
Definition digit_of (c : Ascii.ascii) : option Z :=
  let n := Z.of_N (Ascii.N_of_ascii c) in
  if (48 <=? n) && (n <=? 57) then Some (n - 48) else None.

(** The number read from the leading decimal digits of [s], continuing
    from [acc]. *)
Fixpoint parse_digits (acc : Z) (s : string) : Z :=
  match s with
  | EmptyString => acc
  | String c s' =>
      match digit_of c with
      | Some d => parse_digits (10 * acc + d) s'
      | None => acc
      end
  end.

(** [parseInt(s)] on the strings the components pass to it: text that
    starts with a decimal digit (no sign, blank or radix prefix).
    [None] is NaN. *)
Definition parseInt (s : string) : option Z :=
  match s with
  | EmptyString => None
  | String c _ =>
      match digit_of c with
      | Some _ => Some (parse_digits 0 s)
      | None => None
      end
  end.

(** [`${n}`] and [n.toString()] for an integer [n] below [10^21] in absolute
    value: the decimal digits, with a leading minus sign for a negative
    number.  The numbers the components turn into text are loop indices,
    [Date.now()] and the values of select items, all safe integers.  From
    [10^21] on JavaScript writes a number in exponent notation, which is
    outside the embedding: nothing is stated about [toString] there. *)
Definition toString (n : Z) : string := pretty n.

End Js.

(** ** Rows and files *)

(** A row of [match_screenshots], with the columns the components write and
    read.  [placement], [kills] and [points] are nullable. *)
Record MatchScreenshot := mkMatchScreenshot {
  team_id : string;
  player_id : string;
  day : Z;
  screenshot_url : string;
  placement : option Z;
  kills : option Z;
  points : option Z;
  analyzed_at : string
}.

(** A browser [File]: the two properties the upload handler reads. *)
Record File := mkFile {
  file_name : string;
  file_type : string
}.

(** A row of [teams] as selected by [fetchTeams]. *)
Record TeamRow := mkTeamRow {
  tr_id : string;
  tr_name : string
}.

(** The [Team] record of [@/types/tournament] as the dashboards build it. *)
Record Team := mkTeam {
  id : string;
  name : string;
  totalPoints : Z;
  placementPoints : Z;
  killPoints : Z;
  totalKills : Z;
  matchesPlayed : Z;
  firstPlaceWins : Z
}.

(** ** The [day] migration *)
Module Migration.

(** [CHECK (day >= 1 AND day <= 3)]. *)
Definition day_check (d : Z) : bool := (1 <=? d) && (d <=? 3).

(** [DEFAULT 1]: the day every row present at migration time receives. *)
Definition day_default : Z := 1.

(** [ADD COLUMN day integer NOT NULL DEFAULT 1 CHECK (..)] applied to the
    rows already in the table. *)
Definition add_day_column (rows : list MatchScreenshot) : list MatchScreenshot :=
  map (fun r => mkMatchScreenshot (team_id r) (player_id r) day_default
                  (screenshot_url r) (placement r) (kills r) (points r)
                  (analyzed_at r)) rows.

(** An INSERT into [match_screenshots].  [accepted] is the backend's answer
    on everything but the check constraint (network, row-level security);
    [None] is the error result, which leaves the table as it was. *)
Definition insert (accepted : bool) (r : MatchScreenshot)
    (tbl : list MatchScreenshot) : option (list MatchScreenshot) :=
  if accepted && day_check (day r) then Some (tbl ++ [r]) else None.

(** An UPDATE of the row at position [i] to [r]: the check constraint is
    evaluated on the new row. *)
Definition update (accepted : bool) (i : nat) (r : MatchScreenshot)
    (tbl : list MatchScreenshot) : option (list MatchScreenshot) :=
  if accepted && day_check (day r) then Some (<[i:=r]> tbl) else None.

(** A DELETE of the row at position [i]. *)
Definition delete_row (i : nat) (tbl : list MatchScreenshot) : list MatchScreenshot :=
  take i tbl ++ drop (S i) tbl.

(** The tables that can arise after the migration. *)
Inductive reachable : list MatchScreenshot -> Prop :=
| reach_migrated rows : reachable (add_day_column rows)
| reach_insert a r tbl tbl' :
    reachable tbl -> insert a r tbl = Some tbl' -> reachable tbl'
| reach_update a i r tbl tbl' :
    reachable tbl -> update a i r tbl = Some tbl' -> reachable tbl'
| reach_delete i tbl :
    reachable tbl -> reachable (delete_row i tbl).

End Migration.

(** ** [@/types/tournament] *)
Module Tournament.

(** Modelled from the spec: [calculatePoints] of [@/types/tournament], which
    ScreenshotVerification imports and whose source file is not part of the
    sources at hand.  Section 4.1 of the specification: the placement is
    looked up in the fixed table 1 -> 10, 2 -> 6, 3 -> 5, 4 -> 4, 5 -> 3,
    6 -> 2, 7-8 -> 1, 9+ -> 0, unknown or out-of-range placements map to 0,
    and the total is the placement points plus one point per kill. *)
Definition calculatePoints (placement kills : Z) : Z :=
  (if placement =? 1 then 10
   else if placement =? 2 then 6
   else if placement =? 3 then 5
   else if placement =? 4 then 4
   else if placement =? 5 then 3
   else if placement =? 6 then 2
   else if (7 <=? placement) && (placement <=? 8) then 1
   else 0) + kills.

End Tournament.

(** ** The backend as the upload handler sees it *)

(** What a handler does to the outside, in order: the toasts it shows and the
    backend calls it makes. *)
Inductive Event :=
| toast_error (msg : string)
| toast_success (msg : string)
| storage_upload (fileName : string) (file : File)
| functions_invoke (imageUrl : string)
| db_insert (row : MatchScreenshot)
| navigate (path : string).

(** The [match-screenshots] bucket, the [match_screenshots] table and the
    events so far (oldest first). *)
Record World := mkWorld {
  storage : gmap string File;
  match_screenshots : list MatchScreenshot;
  events : list Event
}.

Definition emit (e : Event) (w : World) : World :=
  mkWorld (storage w) (match_screenshots w) (events w ++ [e]).

Definition set_storage (st : gmap string File) (w : World) : World :=
  mkWorld st (match_screenshots w) (events w).

Definition set_match_screenshots (tbl : list MatchScreenshot) (w : World) : World :=
  mkWorld (storage w) tbl (events w).

(** [storage.from(bucket).upload(fileName, file)] without [upsert]: it stores
    the file under a name that is free, and errs (here [None]) when the
    backend refuses ([ok = false]) or the name is taken. *)
Definition storage_put (ok : bool) (fileName : string) (file : File)
    (st : gmap string File) : option (gmap string File) :=
  if ok && bool_decide (st !! fileName = None)
  then Some (<[fileName := file]> st) else None.

(** A property of the [data] of an [analyze-screenshot] answer, as the
    destructuring [const { placement, kills } = analysisData] reads it: a
    number, [null] (on extraction failure), or [undefined] when the answer
    has no such property. *)
Inductive Field :=
| field_number (n : Z)
| field_null
| field_undefined.

(** [f === null]: [undefined] is not [null]. *)
Definition is_null (f : Field) : bool :=
  match f with
  | field_null => true
  | _ => false
  end.

(** The value a column receives from a property of the insert payload: the
    number, or NULL, both for a [null] and for an [undefined] property,
    which the JSON body leaves out (the columns [placement], [kills] and
    [points] are nullable: the row interfaces type them [number | null]). *)
Definition column (f : Field) : option Z :=
  match f with
  | field_number n => Some n
  | field_null | field_undefined => None
  end.

(** The [data] of an [analyze-screenshot] answer: [{placement, kills}]. *)
Record AnalysisData := mkAnalysisData {
  a_placement : Field;
  a_kills : Field
}.

(** The answer of [functions.invoke]: an error, or [data] (which may itself be
    [null]). *)
Inductive AnalysisResponse :=
| analysisError
| analysisData (data : option AnalysisData).

(** What the outside answers while one file is processed. *)
Record Responses := mkResponses {
  date_now : Z;                  (* Date.now() *)
  upload_ok : bool;              (* no uploadError from the backend *)
  analysis : AnalysisResponse;
  insert_ok : bool;              (* no dbError from the backend *)
  iso_now : string               (* new Date().toISOString() *)
}.

(** [obj[key]] for a number-keyed object and a key that may be [null]: the
    object has no property named "null". *)
Definition prop (obj : gmap Z Z) (key : option Z) : option Z :=
  match key with
  | Some k => obj !! k
  | None => None
  end.

(** ** PlayerDashboard.tsx *)
Module PlayerDashboard.

(** The component's props and the state the handlers read. *)
Record State := mkState {
  userId : string;
  selectedTeamId : string;
  selectedDay : Z;
  teamUploadCounts : gmap string Z
}.

(** The [SelectItem] values of the day select. *)
Definition daySelectItems : list string := ["1"; "2"; "3"]%string.

(** [onValueChange={(v) => setSelectedDay(parseInt(v))}]; [None] when
    [parseInt] gives NaN. *)
Definition daySelect_onValueChange (v : string) (s : State) : option State :=
  match Js.parseInt v with
  | Some d => Some (mkState (userId s) (selectedTeamId s) d (teamUploadCounts s))
  | None => None
  end.

(** [useState<number>(1)]. *)
Definition selectedDay_initial : Z := 1.

(** *** fetchTeams *)

(** [allMatches?.filter((m) => m.team_id === team.id) || []]. *)
Definition teamMatches (allMatches : option (list MatchScreenshot))
    (team : string) : list MatchScreenshot :=
  match allMatches with
  | Some rows => List.filter (fun m => String.eqb (team_id m) team) rows
  | None => []
  end.

(** The first [data.forEach]: the upload count of every team. *)
Definition uploadCounts (data : list TeamRow)
    (allMatches : option (list MatchScreenshot)) : gmap string Z :=
  fold_left
    (fun counts team =>
       <[tr_id team := Z.of_nat (length (teamMatches allMatches (tr_id team)))]> counts)
    data ∅.

(** The table local to [fetchTeams]. *)
Definition fetchTeams_PLACEMENT_POINTS : gmap Z Z :=
  list_to_map
    [(1, 10); (2, 6); (3, 5); (4, 4); (5, 3); (6, 2); (7, 1); (8, 1);
     (9, 0); (10, 0); (11, 0); (12, 0); (13, 0); (14, 0); (15, 0); (16, 0);
     (17, 0); (18, 0); (19, 0); (20, 0); (21, 0); (22, 0); (23, 0); (24, 0);
     (25, 0); (26, 0); (27, 0); (28, 0); (29, 0); (30, 0); (31, 0); (32, 0)].

(** [PLACEMENT_POINTS[match.placement || 0] || 0]. *)
Definition fetchTeams_placementPoints (placement : option Z) : Z :=
  Js.or0 (fetchTeams_PLACEMENT_POINTS !! Js.or0 placement).

(** The three accumulators of [teamMatches.forEach]. *)
Record Totals := mkTotals {
  acc_totalPoints : Z;
  acc_totalKills : Z;
  acc_placementPoints : Z
}.

(** The body of [teamMatches.forEach]. *)
Definition accumulate (t : Totals) (m : MatchScreenshot) : Totals :=
  let totalKills := acc_totalKills t + Js.or0 (kills m) in
  let totalPoints := acc_totalPoints t + Js.or0 (points m) in
  let placementPoints :=
    acc_placementPoints t + fetchTeams_placementPoints (placement m) in
  mkTotals totalPoints totalKills placementPoints.

(** [m.placement === 1]. *)
Definition is_first_place (m : MatchScreenshot) : bool :=
  match placement m with
  | Some p => p =? 1
  | None => false
  end.

(** The callback of [data.map]: the standings entry of one team. *)
Definition teamStats (allMatches : option (list MatchScreenshot))
    (team : TeamRow) : Team :=
  let teamMatches := teamMatches allMatches (tr_id team) in
  let firstPlaceWins := Z.of_nat (length (List.filter is_first_place teamMatches)) in
  let t := fold_left accumulate teamMatches (mkTotals 0 0 0) in
  {| id := tr_id team;
     name := tr_name team;
     totalPoints := acc_totalPoints t;
     placementPoints := acc_placementPoints t;
     killPoints := acc_totalKills t;
     totalKills := acc_totalKills t;
     matchesPlayed := Z.of_nat (length teamMatches);
     firstPlaceWins := firstPlaceWins |}.

(** What [fetchTeams] stores with [setTeamUploadCounts] and [setTeams]. *)
Definition fetchTeams (data : list TeamRow)
    (allMatches : option (list MatchScreenshot)) : gmap string Z * list Team :=
  (uploadCounts data allMatches, map (teamStats allMatches) data).

(** [fetchTeams] as a state change of the component. *)
Definition fetchTeams_state (data : list TeamRow)
    (allMatches : option (list MatchScreenshot)) (s : State) : State :=
  mkState (userId s) (selectedTeamId s) (selectedDay s)
    (fst (fetchTeams data allMatches)).

(** *** handleFileUpload *)

(** The table local to [handleFileUpload]. *)
Definition handleFileUpload_PLACEMENT_POINTS : gmap Z Z :=
  list_to_map
    [(1, 10); (2, 6); (3, 5); (4, 4); (5, 3); (6, 2); (7, 1); (8, 1);
     (9, 0); (10, 0); (11, 0); (12, 0); (13, 0); (14, 0); (15, 0); (16, 0);
     (17, 0); (18, 0); (19, 0); (20, 0); (21, 0); (22, 0); (23, 0); (24, 0);
     (25, 0); (26, 0); (27, 0); (28, 0); (29, 0); (30, 0); (31, 0); (32, 0)].

(** [const placementPoints = PLACEMENT_POINTS[placement] || 0;
     const points = placementPoints + kills;] *)
Definition upload_points (placement : option Z) (kills : Z) : Z :=
  let placementPoints := Js.or0 (prop handleFileUpload_PLACEMENT_POINTS placement) in
  placementPoints + kills.

(** [points] as the insert sends it.  With [placement] [undefined] the lookup
    [PLACEMENT_POINTS[placement]] finds no property and [|| 0] gives 0.
    With [kills] a number the sum is a number; [n + null] is [n]; with
    [kills] [undefined] the sum is [NaN], which the JSON body carries as
    [null]. *)
Definition upload_points_sent (placement kills : Field) : option Z :=
  match kills with
  | field_number k => Some (upload_points (column placement) k)
  | field_null => Some (upload_points (column placement) 0)
  | field_undefined => None
  end.

(** [`...screenshot${n > 1 ? 's' : ''}`]. *)
Definition plural (n : Z) : string := if n >? 1 then "s"%string else ""%string.

(** [`${userId}/${Date.now()}_${i}.${fileExt}`] with
    [fileExt = file.name.split(".").pop()]. *)
Definition fileNameOf (s : State) (i : Z) (file : File) (r : Responses) : string :=
  let fileExt := Js.split_dot_pop (file_name file) in
  userId s +:+ "/" +:+ Js.toString (date_now r) +:+ "_" +:+ Js.toString i
    +:+ "." +:+ fileExt.

Section Upload.

(** [storage.from("match-screenshots").getPublicUrl(fileName)]: the public
    URL the backend assigns to a stored name. *)
Variable getPublicUrl : string -> string.

(** The body of the [for] loop for the file at index [i].  The result says
    whether [successCount] (true) or [failCount] (false) is incremented;
    a [throw] inside the inner [try] lands in its [catch], which
    increments [failCount]. *)
Definition processFile (s : State) (i : Z) (file : File) (r : Responses)
    (w : World) : World * bool :=
  let fileName := fileNameOf s i file r in
  let w := emit (storage_upload fileName file) w in
  match storage_put (upload_ok r) fileName file (storage w) with
  | None => (w, false)                      (* throw uploadError *)
  | Some st =>
      let w := set_storage st w in
      let publicUrl := getPublicUrl fileName in
      let w := emit (functions_invoke publicUrl) w in
      match analysis r with
      | analysisError => (w, false)         (* failCount++; continue *)
      | analysisData None => (w, false)     (* destructuring null throws *)
      | analysisData (Some data) =>
          let placement := a_placement data in
          let kills := a_kills data in
          if is_null placement || is_null kills
          then (w, false)                   (* failCount++; continue *)
          else
            let points := upload_points_sent placement kills in
            let row :=
              {| team_id := selectedTeamId s;
                 player_id := userId s;
                 day := selectedDay s;
                 screenshot_url := publicUrl;
                 placement := column placement;
                 kills := column kills;
                 points := points;
                 analyzed_at := iso_now r |} in
            let w := emit (db_insert row) w in
            match Migration.insert (insert_ok r) row (match_screenshots w) with
            | None => (w, false)            (* dbError: failCount++ *)
            | Some tbl => (set_match_screenshots tbl w, true)
            end
      end
  end.

(** The [for] loop from index [i] on, over the files not yet processed,
    threading the backend and the two counters.  [resp i] is what the
    outside answers while file [i] is processed. *)
Fixpoint processFiles (s : State) (resp : Z -> Responses) (i : Z)
    (files : list File) (acc : World * Z * Z) : World * Z * Z :=
  match files with
  | [] => acc
  | file :: rest =>
      let '(w, successCount, failCount) := acc in
      let '(w, ok) := processFile s i file (resp i) w in
      processFiles s resp (i + 1) rest
        (if ok then (w, successCount + 1, failCount)
         else (w, successCount, failCount + 1))
  end.

(** [file => !file.type.startsWith("image/")]. *)
Definition is_invalid (file : File) : bool :=
  negb (Js.startsWith (file_type file) "image/").

(** The toasts after the loop. *)
Definition showResults (successCount failCount : Z) (w : World) : World :=
  let w :=
    if successCount >? 0
    then emit (toast_success ("Successfully uploaded " +:+ Js.toString successCount
                                +:+ " screenshot" +:+ plural successCount +:+ "!")) w
    else w in
  if failCount >? 0
  then emit (toast_error ("Failed to process " +:+ Js.toString failCount
                            +:+ " screenshot" +:+ plural failCount)) w
  else w.

(** [handleFileUpload] on the selected [files].  The refresh it starts at
    the end ([fetchTeams()], not awaited) is the separate state change
    [fetchTeams_state]. *)
Definition handleFileUpload (s : State) (files : list File)
    (resp : Z -> Responses) (w : World) : World :=
  let files_length := Z.of_nat (length files) in
  if files_length =? 0 then w
  else if Js.str_falsy (selectedTeamId s)
  then emit (toast_error "Please select a team first") w
  else
    let currentUploads := Js.or0 (teamUploadCounts s !! selectedTeamId s) in
    if currentUploads >=? 12
    then emit (toast_error "This team has already uploaded the maximum 12 screenshots") w
    else if currentUploads + files_length >? 12
    then
      let remaining := 12 - currentUploads in
      emit (toast_error ("This team can only upload " +:+ Js.toString remaining
                           +:+ " more screenshot" +:+ plural remaining)) w
    else if files_length >? 4
    then emit (toast_error "You can only upload up to 4 screenshots at once") w
    else
      let invalidFiles := List.filter is_invalid files in
      if Z.of_nat (length invalidFiles) >? 0
      then emit (toast_error "Please upload only image files") w
      else
        let '(w, successCount, failCount) :=
          processFiles s resp 0 files (w, 0, 0) in
        showResults successCount failCount w.

End Upload.

End PlayerDashboard.

(** ** AdminDashboard *)
Module AdminDashboard.

(** [matchData?.filter((m) => m.team_id === team.id) || []]. *)
Definition teamMatches (matchData : option (list MatchScreenshot))
    (team : string) : list MatchScreenshot :=
  match matchData with
  | Some rows => List.filter (fun m => String.eqb (team_id m) team) rows
  | None => []
  end.

(** The table local to [fetchTeams]. *)
Definition PLACEMENT_POINTS : gmap Z Z :=
  list_to_map
    [(1, 10); (2, 6); (3, 5); (4, 4); (5, 3); (6, 2); (7, 1); (8, 1);
     (9, 0); (10, 0); (11, 0); (12, 0); (13, 0); (14, 0); (15, 0); (16, 0);
     (17, 0); (18, 0); (19, 0); (20, 0); (21, 0); (22, 0); (23, 0); (24, 0);
     (25, 0); (26, 0); (27, 0); (28, 0); (29, 0); (30, 0); (31, 0); (32, 0)].

(** [PLACEMENT_POINTS[match.placement || 0] || 0]. *)
Definition placementPointsOf (placement : option Z) : Z :=
  Js.or0 (PLACEMENT_POINTS !! Js.or0 placement).

(** [m.placement === 1]. *)
Definition is_first_place (m : MatchScreenshot) : bool :=
  match placement m with
  | Some p => p =? 1
  | None => false
  end.

(** The callback of [teamsData.map]: the standings entry of one team. *)
Definition teamStats (matchData : option (list MatchScreenshot))
    (team : TeamRow) : Team :=
  let teamMatches := teamMatches matchData (tr_id team) in
  let totalPoints :=
    fold_left (fun sum m => sum + Js.or0 (points m)) teamMatches 0 in
  let totalKills :=
    fold_left (fun sum m => sum + Js.or0 (kills m)) teamMatches 0 in
  let firstPlaceWins := Z.of_nat (length (List.filter is_first_place teamMatches)) in
  let placementPoints :=
    fold_left (fun placementPoints m => placementPoints + placementPointsOf (placement m))
      teamMatches 0 in
  {| id := tr_id team;
     name := tr_name team;
     totalPoints := totalPoints;
     placementPoints := placementPoints;
     killPoints := totalKills;
     totalKills := totalKills;
     matchesPlayed := Z.of_nat (length teamMatches);
     firstPlaceWins := firstPlaceWins |}.

(** [teamsWithStats], the value [fetchTeams] stores with [setTeams]. *)
Definition teamsWithStats (teamsData : list TeamRow)
    (matchData : option (list MatchScreenshot)) : list Team :=
  map (teamStats matchData) teamsData.

(** A row of [tournaments]: the columns the dashboard reads. *)
Record Tournament := mkTournament {
  tournament_id : string;
  tournament_name : string
}.

(** The state [fetchTournaments] writes: [tournaments] and
    [selectedTournament]. *)
Record Selection := mkSelection {
  tournaments : list Tournament;
  selectedTournament : string
}.

(** The answer of the [tournaments] query: an error, or [data] (which may be
    [null]). *)
Inductive TournamentsResponse :=
| tournamentsError
| tournamentsData (data : option (list Tournament)).

(** [fetchTournaments].  [captured] is the [selectedTournament] the function
    sees, the value of the render that created it; the state it writes to is
    [st]. *)
Definition fetchTournaments (captured : string) (resp : TournamentsResponse)
    (st : Selection) : Selection :=
  match resp with
  | tournamentsError => st
  | tournamentsData data =>
      let st := mkSelection (default [] data) (selectedTournament st) in
      match data with
      | None | Some [] => mkSelection (tournaments st) ""
      | Some ((first :: _) as data) =>
          let selectedExists :=
            existsb (fun t => String.eqb (tournament_id t) captured) data in
          if Js.str_falsy captured || negb selectedExists
          then mkSelection (tournaments st) (tournament_id first)
          else st
      end
  end.

(** The refresh of the component: [fetchTournaments] created by the current
    render. *)
Definition refreshTournaments (resp : TournamentsResponse) (st : Selection) : Selection :=
  fetchTournaments (selectedTournament st) resp st.

(** [onTournamentSelect={(id) => { setSelectedTournament(id || "");
    fetchTournaments(); }}]: the fetch still sees the selection of the render
    the callback belongs to. *)
Definition onTournamentSelect (id : option string) (resp : TournamentsResponse)
    (st : Selection) : Selection :=
  let captured := selectedTournament st in
  let st := mkSelection (tournaments st) (default ""%string id) in
  fetchTournaments captured resp st.

End AdminDashboard.

(** ** ScreenshotVerification *)
Module ScreenshotVerification.

(** The row [handleUpdate] writes over [r]:
    [{placement: editPlacement, kills: editKills, points: newPoints}] with
    [newPoints = calculatePoints(editPlacement, editKills)]; the other
    columns, [day] among them, are not part of the update. *)
Definition edited (editPlacement editKills : Z) (r : MatchScreenshot) : MatchScreenshot :=
  let newPoints := Tournament.calculatePoints editPlacement editKills in
  {| team_id := team_id r;
     player_id := player_id r;
     day := day r;
     screenshot_url := screenshot_url r;
     placement := Some editPlacement;
     kills := Some editKills;
     points := Some newPoints;
     analyzed_at := analyzed_at r |}.

(** [handleUpdate] on the table, [selected] being the position of the row
    with [selectedScreenshot.id] ([None]: no screenshot selected).  [None]
    as result: the update erred and the table is as it was. *)
Definition handleUpdate (selected : option nat) (editPlacement editKills : Z)
    (accepted : bool) (tbl : list MatchScreenshot) : option (list MatchScreenshot) :=
  match selected with
  | None => Some tbl
  | Some i =>
      match tbl !! i with
      | Some r => Migration.update accepted i (edited editPlacement editKills r) tbl
      | None => if accepted then Some tbl else None
      end
  end.

(** [handleEdit]: the values the dialog opens with,
    [screenshot.placement || 1] and [screenshot.kills || 0]. *)
Definition handleEdit (screenshot : MatchScreenshot) : Z * Z :=
  (match placement screenshot with
   | Some p => if Js.truthy p then p else 1
   | None => 1
   end,
   Js.or0 (kills screenshot)).

End ScreenshotVerification.

(** ** Auth: the access-code login *)
Module Auth.

(** A row of [sessions] as the login flows insert it. *)
Record SessionRow := mkSessionRow {
  user_id : string;
  code_used : string;
  role : string;
  session_team_id : option string
}.

(** The row [validate_access_code] returns for a valid code. *)
Record CodeData := mkCodeData {
  code_role : string;
  code_team_id : option string
}.

(** The answer of [auth.signInAnonymously()]: [authError], or [authData]
    whose [user] may be missing. *)
Inductive SignInResponse :=
| authError
| authData (user : option string).

(** The answer of [rpc("validate_access_code", ..).single()]: [codeError],
    or [codeData] which may be [null]. *)
Inductive RpcResponse :=
| codeError
| codeData (data : option CodeData).

(** What the outside answers during one login attempt. *)
Record Responses := mkResponses {
  signIn : SignInResponse;
  validate_access_code : string -> RpcResponse;
  session_ok : bool              (* no sessionError from the backend *)
}.

(** The signed-in user of the client, the [sessions] table and the events
    so far (oldest first). *)
Record Backend := mkBackend {
  auth_user : option string;
  sessions : list SessionRow;
  events : list Event
}.

Definition emit (e : Event) (b : Backend) : Backend :=
  mkBackend (auth_user b) (sessions b) (events b ++ [e]).

(** A successful [signInAnonymously]: the client holds the new user. *)
Definition signedIn (user : string) (b : Backend) : Backend :=
  mkBackend (Some user) (sessions b) (events b).

(** [auth.signOut()]. *)
Definition signOut (b : Backend) : Backend :=
  mkBackend None (sessions b) (events b).

(** An INSERT into [sessions]; [None] is the error result. *)
Definition insert_session (ok : bool) (r : SessionRow)
    (tbl : list SessionRow) : option (list SessionRow) :=
  if ok then Some (tbl ++ [r]) else None.

Section Login.

(** [String.prototype.trim] and [String.prototype.toUpperCase]. *)
Variable trim : string -> string.
Variable toUpperCase : string -> string.

(** [handleAccessCode] with [accessCode] entered in the form. *)
Definition handleAccessCode (accessCode : string) (r : Responses)
    (b : Backend) : Backend :=
  if Js.str_falsy (trim accessCode)
  then emit (toast_error "Please enter an access code") b
  else
    match signIn r with
    | authError => emit (toast_error "Authentication failed") b
    | authData None => emit (toast_error "Authentication failed") b
    | authData (Some user) =>
        let b := signedIn user b in
        match validate_access_code r (toUpperCase (trim accessCode)) with
        | codeError | codeData None =>
            emit (toast_error "Invalid access code") (signOut b)
        | codeData (Some data) =>
            let row :=
              {| user_id := user;
                 code_used := toUpperCase (trim accessCode);
                 role := code_role data;
                 session_team_id := code_team_id data |} in
            match insert_session (session_ok r) row (sessions b) with
            | None => emit (toast_error "Failed to create session") (signOut b)
            | Some tbl =>
                let b := mkBackend (auth_user b) tbl (events b) in
                let b := emit (toast_success ("Welcome " +:+ code_role data +:+ "!")) b in
                emit (navigate "/") b
            end
        end
    end.

End Login.

(** ASCII versions of the two string methods, to run the flow on examples. *)
Definition upper_ascii (c : Ascii.ascii) : Ascii.ascii :=
  let n := Ascii.N_of_ascii c in
  if ((97 <=? n) && (n <=? 122))%N then Ascii.ascii_of_N (n - 32) else c.

Fixpoint toUpperCase_ascii (s : string) : string :=
  match s with
  | EmptyString => EmptyString
  | String c s' => String (upper_ascii c) (toUpperCase_ascii s')
  end.

Fixpoint trimStart_ascii (s : string) : string :=
  match s with
  | EmptyString => EmptyString
  | String c s' => if Ascii.is_space c then trimStart_ascii s' else s
  end.

Definition trim_ascii (s : string) : string :=
  String.rev (trimStart_ascii (String.rev (trimStart_ascii s))).

(** What the outside answers during one player login: the sign-in, the
    message of its error when it fails, and the message of the [sessions]
    insert error ([None]: the insert succeeded). *)
Record PlayerResponses := mkPlayerResponses {
  player_signIn : SignInResponse;
  authError_message : string;
  sessionError_message : option string
}.

(** [handlePlayerAccess]: the "Screenshot Submit" button. *)
Definition handlePlayerAccess (r : PlayerResponses) (b : Backend) : Backend :=
  match player_signIn r with
  | authError =>
      emit (toast_error ("Authentication failed: " +:+ authError_message r)) b
  | authData None =>
      emit (toast_error "Authentication failed - no user returned") b
  | authData (Some user) =>
      let b := signedIn user b in
      let row :=
        {| user_id := user;
           code_used := "PLAYER_DIRECT";
           role := "player";
           session_team_id := None |} in
      match sessionError_message r with
      | Some message =>
          emit (toast_error ("Failed to create session: " +:+ message)) (signOut b)
      | None =>
          let b := mkBackend (auth_user b) (sessions b ++ [row]) (events b) in
          let b := emit (toast_success "Welcome! Redirecting to dashboard...") b in
          emit (navigate "/") b
      end
  end.

End Auth.

(** ** Index: which dashboard a signed-in user gets *)
Module Index.

(** The state of the page: [loading], [userId], [userRole]. *)
Record State := mkState {
  loading : bool;
  userId : option string;
  userRole : option string
}.

(** [useState(true)], [useState(null)], [useState(null)]. *)
Definition initial : State := mkState true None None.

(** [from("sessions").select("role").eq("user_id", id).maybeSingle()]:
    [Some None] is no row, [Some (Some role)] is the one row, [None] is the
    error result (the backend refuses, [ok = false], or more than one row
    matches). *)
Definition role_of (ok : bool) (id : string) (sessions : list Auth.SessionRow)
    : option (option string) :=
  if ok then
    match List.filter (fun row => String.eqb (Auth.user_id row) id) sessions with
    | [] => Some None
    | [row] => Some (Some (Auth.role row))
    | _ :: _ :: _ => None
    end
  else None.

(** [checkAuth]: the new page state and the navigation it asks for, if any.
    [ok] says whether the role query is answered. *)
Definition checkAuth (ok : bool) (b : Auth.Backend) (st : State)
    : State * option string :=
  match Auth.auth_user b with
  | None => (st, Some "/auth"%string)
  | Some id =>
      let st := mkState (loading st) (Some id) (userRole st) in
      match role_of ok id (Auth.sessions b) with
      | None => (st, Some "/auth"%string)            (* error *)
      | Some None => (st, Some "/auth"%string)       (* no session data *)
      | Some (Some role) => (mkState false (userId st) (Some role), None)
      end
  end.

(** What the page renders. *)
Inductive View :=
| Spinner
| Nothing
| ShowAdminDashboard (userId : string)
| ShowPlayerDashboard (userId : string).

(** The [return]s of the component, in order. *)
Definition render (st : State) : View :=
  if loading st then Spinner
  else
    match userId st, userRole st with
    | Some id, Some role =>
        if Js.str_falsy id || Js.str_falsy role then Nothing
        else if String.eqb role "admin" then ShowAdminDashboard id
        else ShowPlayerDashboard id
    | _, _ => Nothing
    end.

End Index.

(** ** Observations on traces and rows, used to state the properties *)

(** The files of the storage uploads attempted in a trace, in order. *)
Definition attempted_files (evs : list Event) : list File :=
  omap (fun e => match e with storage_upload _ file => Some file | _ => None end) evs.

(** The rows of the inserts attempted in a trace, in order. *)
Definition attempted_rows (evs : list Event) : list MatchScreenshot :=
  omap (fun e => match e with db_insert row => Some row | _ => None end) evs.

(** The toasts shown in a trace, in order. *)
Definition toasts_of (evs : list Event) : list Event :=
  omap (fun e => match e with
                 | toast_error _ | toast_success _ => Some e
                 | _ => None
                 end) evs.

(** The image URLs of the analysis calls made in a trace, in order. *)
Definition invoked_urls (evs : list Event) : list string :=
  omap (fun e => match e with functions_invoke url => Some url | _ => None end) evs.

(** A row for the team selected in state [s]. *)
Definition team_row (s : PlayerDashboard.State) (row : MatchScreenshot) : Prop :=
  team_id row = PlayerDashboard.selectedTeamId s.

(** The analysis answer carries both properties: when it has [data], its
    [placement] and its [kills] are each a number or [null]. *)
Definition fields_present (r : Responses) : Prop :=
  forall data, analysis r = analysisData (Some data) ->
  a_placement data <> field_undefined /\ a_kills data <> field_undefined.

(** A row with a placement, a kill count, and the points scored from the
    two, for the team selected in state [s]. *)
Definition scored_row (s : PlayerDashboard.State) (row : MatchScreenshot) : Prop :=
  team_id row = PlayerDashboard.selectedTeamId s
  /\ exists p k, placement row = Some p /\ kills row = Some k
                 /\ points row = Some (PlayerDashboard.upload_points (Some p) k).

(** ** Sample inputs, to run the handlers on *)
Module Sample.

Definition url (fileName : string) : string := "https://cdn.example/" +:+ fileName.

Definition shot : File := mkFile "shot.png" "image/png".

Definition empty_world : World := mkWorld ∅ [] [].

(** A player whose component holds the given upload count for team A. *)
Definition player (count : Z) : PlayerDashboard.State :=
  PlayerDashboard.mkState "u1" "teamA" 2 {[ "teamA"%string := count ]}.

(** A player whose component has not fetched any count yet. *)
Definition player_unfetched : PlayerDashboard.State :=
  PlayerDashboard.mkState "u1" "teamA" 2 ∅.

(** The outside answering every call without error: first place, 5 kills. *)
Definition all_fine (i : Z) : Responses :=
  mkResponses 1700 true
    (analysisData (Some (mkAnalysisData (field_number 1) (field_number 5))))
    true "2025-11-06T06:51:56.000Z".

(** The analysis finds the kills but no placement: [{placement: null, kills: 5}]. *)
Definition no_placement (i : Z) : Responses :=
  mkResponses 1700 true
    (analysisData (Some (mkAnalysisData field_null (field_number 5))))
    true "2025-11-06T06:51:56.000Z".


(** A row of team A. *)
Definition row_A : MatchScreenshot :=
  mkMatchScreenshot "teamA" "u2" 1 "https://cdn.example/u2/1_0.png"
    (Some 3) (Some 2) (Some 7) "2025-11-06T06:51:56.000Z".


End Sample.

(** ** TeamManager *)
Module TeamManager.

(** A row of [teams] as [handleAddTeam] inserts it. *)
Record TeamInsert := mkTeamInsert {
  name : string;
  tournament_id : string;
  logo_url : option string
}.

(** The form: the selected tournament, the name typed, the logo chosen. *)
Record Form := mkForm {
  selectedTournament : string;
  newTeamName : string;
  logoFile : option File
}.

(** The [team-logos] bucket, the [teams] table, the toasts so far. *)
Record Backend := mkBackend {
  logos : gmap string File;
  teams : list TeamInsert;
  toasts : list Event
}.

(** What the outside answers while a team is added. *)
Record Responses := mkResponses {
  date_now : Z;               (* Date.now() *)
  random_text : string;       (* Math.random().toString(36).substring(7) *)
  upload_ok : bool;           (* no uploadError *)
  insert_ok : bool            (* no teamError *)
}.

Definition toast (e : Event) (b : Backend) : Backend :=
  mkBackend (logos b) (teams b) (toasts b ++ [e]).

(** [`${selectedTournament}/${Date.now()}-${random}.${fileExt}`]. *)
Definition filePathOf (f : Form) (logo : File) (r : Responses) : string :=
  let fileExt := Js.split_dot_pop (file_name logo) in
  let fileName := Js.toString (date_now r) +:+ "-" +:+ random_text r +:+ "." +:+ fileExt in
  selectedTournament f +:+ "/" +:+ fileName.

Section AddTeam.

(** [String.prototype.trim] and the public URL of a stored logo. *)
Variable trim : string -> string.
Variable getPublicUrl : string -> string.

(** The insert at the end of [handleAddTeam], with the logo URL found; on
    success the form is cleared ([setNewTeamName("")], [setLogoFile(null)]). *)
Definition createTeam (f : Form) (logoUrl : option string) (r : Responses)
    (b : Backend) : Backend * Form :=
  if insert_ok r
  then (toast (toast_success "Team created successfully!")
          (mkBackend (logos b)
             (teams b ++ [mkTeamInsert (trim (newTeamName f)) (selectedTournament f) logoUrl])
             (toasts b)),
        mkForm (selectedTournament f) "" None)
  else (toast (toast_error "Failed to create team") b, f).

(** [handleAddTeam]: the backend and the form afterwards. *)
Definition handleAddTeam (f : Form) (r : Responses) (b : Backend) : Backend * Form :=
  if Js.str_falsy (selectedTournament f)
  then (toast (toast_error "Please select a tournament first") b, f)
  else if Js.str_falsy (trim (newTeamName f))
  then (toast (toast_error "Please enter a team name") b, f)
  else
    match logoFile f with
    | Some logo =>
        let filePath := filePathOf f logo r in
        match storage_put (upload_ok r) filePath logo (logos b) with
        | None => (toast (toast_error "Failed to upload logo") b, f)
        | Some stored =>
            let b := mkBackend stored (teams b) (toasts b) in
            createTeam f (Some (getPublicUrl filePath)) r b
        end
    | None => createTeam f None r b
    end.

End AddTeam.

End TeamManager.

(** The property names every JavaScript object inherits from
    [Object.prototype]: [obj[k]] finds something for them even on [{}]. *)
Definition Object_prototype_keys : list string :=
  ["constructor"; "__defineGetter__"; "__defineSetter__"; "hasOwnProperty";
   "__lookupGetter__"; "__lookupSetter__"; "isPrototypeOf";
   "propertyIsEnumerable"; "toString"; "valueOf"; "__proto__";
   "toLocaleString"]%string.

(** ** ScreenshotGallery.tsx *)
Module ScreenshotGallery.

(** The [Screenshot] interface of the gallery. *)
Record Screenshot := mkScreenshot {
  id : string;
  team_id : string;
  screenshot_url : string;
  placement : option Z;
  kills : option Z;
  points : option Z;
  day : Z;
  created_at : string
}.

(** The [Team] interface of the gallery ([id], [name], [logo_url]). *)
Record Team := mkTeam {
  t_id : string;
  t_name : string;
  t_logo_url : option string
}.

(** [teams.find((t) => t.id === teamId)?.name || "Unknown Team"]. *)
Definition getTeamName (teams : list Team) (teamId : string) : string :=
  match List.find (fun t => String.eqb (t_id t) teamId) teams with
  | Some t => if Js.str_falsy (t_name t) then "Unknown Team"%string else t_name t
  | None => "Unknown Team"%string
  end.

(** The body of [screenshots.forEach] in [groupByTeamAndDay], on the own
    properties of [grouped] (a team name that is a property of
    [Object.prototype], such as "constructor", is not an own property and is
    outside this embedding). *)
Definition addToGroup (teams : list Team)
    (grouped : gmap string (gmap Z (list Screenshot))) (screenshot : Screenshot)
    : gmap string (gmap Z (list Screenshot)) :=
  let teamName := getTeamName teams (team_id screenshot) in
  let grouped :=
    match grouped !! teamName with
    | None => <[teamName := ∅]> grouped
    | Some _ => grouped
    end in
  let days := default ∅ (grouped !! teamName) in
  let days :=
    match days !! day screenshot with
    | None => <[day screenshot := []]> days
    | Some _ => days
    end in
  let days :=
    <[day screenshot := default [] (days !! day screenshot) ++ [screenshot]]> days in
  <[teamName := days]> grouped.

(** [groupByTeamAndDay]. *)
Definition groupByTeamAndDay (teams : list Team) (screenshots : list Screenshot)
    : gmap string (gmap Z (list Screenshot)) :=
  fold_left (addToGroup teams) screenshots ∅.

(** [s.split("/")], [acc] being the segment read so far. *)
Fixpoint split_slash_from (acc s : string) : list string :=
  match s with
  | EmptyString => [acc]
  | String c s' =>
      if String.eqb (String c EmptyString) "/" then acc :: split_slash_from EmptyString s'
      else split_slash_from (acc +:+ String c EmptyString) s'
  end.

Definition split_slash (s : string) : list string := split_slash_from EmptyString s.

(** [parts.join("/")]. *)
Fixpoint join_slash (parts : list string) : string :=
  match parts with
  | [] => EmptyString
  | [part] => part
  | part :: rest => part +:+ "/" +:+ join_slash rest
  end.

(** [parts.indexOf(x)]: the first position of [x], or -1. *)
Fixpoint indexOf (parts : list string) (x : string) : Z :=
  match parts with
  | [] => -1
  | part :: rest =>
      if String.eqb part x then 0
      else let i := indexOf rest x in if i <? 0 then -1 else i + 1
  end.

(** [urlParts.slice(urlParts.indexOf("match-screenshots") + 1).join("/")]
    with [urlParts = screenshotUrl.split("/")]. *)
Definition filePathOf (screenshotUrl : string) : string :=
  let urlParts := split_slash screenshotUrl in
  join_slash (drop (Z.to_nat (indexOf urlParts "match-screenshots" + 1)) urlParts).

(** The bucket, the table with the gallery's columns, the toasts so far. *)
Record Backend := mkBackend {
  bucket : gmap string File;
  table : list Screenshot;
  toasts : list Event
}.

(** What the backend answers to the two calls of a deletion. *)
Record Responses := mkResponses {
  storage_ok : bool;     (* no storageError *)
  db_ok : bool           (* no dbError *)
}.

(** [handleDeleteScreenshot].  The refresh at the end ([fetchScreenshots()])
    is a separate action. *)
Definition handleDeleteScreenshot (isAdmin : bool) (screenshotId screenshotUrl : string)
    (r : Responses) (b : Backend) : Backend :=
  if negb isAdmin then b
  else
    let filePath := filePathOf screenshotUrl in
    let b :=
      if storage_ok r then mkBackend (delete filePath (bucket b)) (table b) (toasts b)
      else b                                  (* console.error only *) in
    if negb (db_ok r)
    then mkBackend (bucket b) (table b)
           (toasts b ++ [toast_error "Failed to delete screenshot"])
    else mkBackend (bucket b)
           (List.filter (fun row => negb (String.eqb (id row) screenshotId)) (table b))
           (toasts b ++ [toast_success "Screenshot deleted"]).

End ScreenshotGallery.

(** ** Characters of a string, used to state facts about generated text *)
Module Text.

(** Every character of [s] satisfies [p]. *)
Fixpoint every_char (p : Ascii.ascii -> bool) (s : string) : bool :=
  match s with
  | EmptyString => true
  | String c s' => p c && every_char p s'
  end.

(** [c] is a decimal digit. *)
Definition is_digit (c : Ascii.ascii) : bool :=
  match Js.digit_of c with
  | Some _ => true
  | None => false
  end.

(** [c] is a decimal digit or the minus sign. *)
Definition is_number_char (c : Ascii.ascii) : bool :=
  is_digit c || String.eqb (String c EmptyString) "-".

(** [c] is not the one character of [sep]. *)
Definition is_not (sep : string) (c : Ascii.ascii) : bool :=
  negb (String.eqb (String c EmptyString) sep).

End Text.

(** * Properties *)

(** The tables are looked up through their lemmas, never unfolded by [simpl]. *)
Arguments PlayerDashboard.fetchTeams_PLACEMENT_POINTS : simpl never.
Arguments PlayerDashboard.handleFileUpload_PLACEMENT_POINTS : simpl never.
Arguments AdminDashboard.PLACEMENT_POINTS : simpl never.

(** ** The placement tables *)
Section Scoring.

Import PlayerDashboard.

Lemma or0_nonneg (x : option Z) : (forall v, x = Some v -> 0 <= v) -> 0 <= Js.or0 x.
Proof.
  intros H. destruct x as [v|]; simpl; [|lia].
  specialize (H v eq_refl). destruct (Js.truthy v); lia.
Qed.

Lemma or0_default (x : option Z) : Js.or0 x = default 0 x.
Proof.
  destruct x as [v|]; simpl; [|reflexivity].
  unfold Js.truthy. destruct (Z.eqb_spec v 0); simpl; congruence.
Qed.

Lemma or0_Some (v : Z) : Js.or0 (Some v) = v.
Proof.
  unfold Js.or0, Js.truthy. destruct (Z.eqb_spec v 0); simpl; congruence.
Qed.

(** Placements 9 to 32 carry an explicit 0 in the table. *)
Lemma table_explicit_zero (n : nat) :
  (n < 24)%nat ->
  handleFileUpload_PLACEMENT_POINTS !! (9 + Z.of_nat n) = Some 0.
Proof.
  intros Hn.
  do 24 (destruct n as [|n]; [vm_compute; reflexivity|]).
  lia.
Qed.

(** Placements outside 1..32 are not keys of the table. *)
Lemma table_no_key (p : Z) :
  p < 1 \/ 32 < p -> handleFileUpload_PLACEMENT_POINTS !! p = None.
Proof.
  intros Hp. unfold handleFileUpload_PLACEMENT_POINTS.
  apply not_elem_of_list_to_map_1. simpl.
  repeat (apply not_elem_of_cons; split; [lia|]).
  apply not_elem_of_nil.
Qed.

(** Outside 1..8 the placement contributes nothing. *)
Lemma table_zero (p : Z) :
  p < 1 \/ 9 <= p -> Js.or0 (handleFileUpload_PLACEMENT_POINTS !! p) = 0.
Proof.
  intros Hp.
  destruct (decide (9 <= p <= 32)) as [Hin|Hout].
  - replace p with (9 + Z.of_nat (Z.to_nat (p - 9))) by lia.
    rewrite table_explicit_zero by lia. reflexivity.
  - rewrite table_no_key by lia. reflexivity.
Qed.

(** The three copies of the table are the same map. *)
Lemma tables_equal :
  fetchTeams_PLACEMENT_POINTS = handleFileUpload_PLACEMENT_POINTS
  /\ AdminDashboard.PLACEMENT_POINTS = handleFileUpload_PLACEMENT_POINTS.
Proof. split; vm_compute; reflexivity. Qed.

(** The aggregation's lookup [PLACEMENT_POINTS[placement || 0] || 0] and the
    upload's lookup [PLACEMENT_POINTS[placement] || 0] agree on every
    placement, [null] included. *)
Lemma aggregation_lookup (placement : option Z) :
  AdminDashboard.placementPointsOf placement
    = Js.or0 (prop handleFileUpload_PLACEMENT_POINTS placement)
  /\ fetchTeams_placementPoints placement
    = Js.or0 (prop handleFileUpload_PLACEMENT_POINTS placement).
Proof.
  unfold AdminDashboard.placementPointsOf, fetchTeams_placementPoints.
  destruct tables_equal as [-> ->].
  destruct placement as [p|]; cbn [prop].
  - rewrite or0_Some. auto.
  - change (Js.or0 None) with 0. rewrite table_zero by lia. auto.
Qed.

(** The rows 1..8 of the table. *)
Lemma table_rows (p t : Z) :
  In (p, t) [(1, 10); (2, 6); (3, 5); (4, 4); (5, 3); (6, 2); (7, 1); (8, 1)] ->
  Js.or0 (handleFileUpload_PLACEMENT_POINTS !! p) = t.
Proof.
  intros H. cbn [In] in H.
  repeat (destruct H as [H|H]; [injection H as <- <-; vm_compute; reflexivity|]).
  contradiction.
Qed.

(** No entry of the table is negative. *)
Lemma table_nonneg (p : Z) : 0 <= Js.or0 (handleFileUpload_PLACEMENT_POINTS !! p).
Proof.
  destruct (decide (1 <= p <= 8)) as [Hin|Hout].
  - assert (Hp : p = 1 \/ p = 2 \/ p = 3 \/ p = 4 \/ p = 5 \/ p = 6 \/ p = 7 \/ p = 8) by lia.
    repeat (destruct Hp as [->|Hp]; [vm_compute; discriminate|]).
    subst p. vm_compute; discriminate.
  - rewrite table_zero by lia. lia.
Qed.

(** C1. For a placement 1..8 the upload-time computation returns the table's
    points (1 -> 10, 2 -> 6, 3 -> 5, 4 -> 4, 5 -> 3, 6 -> 2, 7 -> 1,
    8 -> 1) plus the kills, and the standings aggregation takes the same
    placement points; for a placement of 9 or more and for a null placement
    the placement contributes 0 and the result is the kill count.  The three
    examples of the specification are instances. *)
Theorem scoring_table (k : Z) :
  0 <= k ->
  (forall p t,
      In (p, t) [(1, 10); (2, 6); (3, 5); (4, 4); (5, 3); (6, 2); (7, 1); (8, 1)] ->
      upload_points (Some p) k = t + k
      /\ AdminDashboard.placementPointsOf (Some p) = t
      /\ fetchTeams_placementPoints (Some p) = t)
  /\ (forall p,
      9 <= p ->
      upload_points (Some p) k = k
      /\ AdminDashboard.placementPointsOf (Some p) = 0
      /\ fetchTeams_placementPoints (Some p) = 0)
  /\ (upload_points None k = k
      /\ AdminDashboard.placementPointsOf None = 0
      /\ fetchTeams_placementPoints None = 0)
  /\ upload_points (Some 1) 5 = 15
  /\ upload_points (Some 9) 3 = 3
  /\ upload_points None 0 = 0.
Proof.
  intros _.
  split; [|split; [|split; [|split; [|split]]]].
  - intros p t Hin.
    destruct (aggregation_lookup (Some p)) as [-> ->].
    unfold upload_points; cbn [prop]. rewrite (table_rows p t Hin). auto.
  - intros p Hp.
    destruct (aggregation_lookup (Some p)) as [-> ->].
    unfold upload_points; cbn [prop]. rewrite table_zero by lia.
    repeat split; lia.
  - destruct (aggregation_lookup None) as [-> ->].
    unfold upload_points; cbn [prop]. change (Js.or0 None) with 0.
    repeat split; lia.
  - vm_compute; reflexivity.
  - vm_compute; reflexivity.
  - vm_compute; reflexivity.
Qed.

Lemma scoring_table_witness :
  0 <= 5 /\ upload_points (Some 1) 5 = 10 + 5 /\ upload_points (Some 9) 5 = 5.
Proof.
  split; [lia|].
  destruct (scoring_table 5 ltac:(lia)) as (Hrows & Hzero & _).
  split.
  - apply (Hrows 1 10). left. reflexivity.
  - apply (Hzero 9). lia.
Defined.

(** The placement points of the specification's table: the first summand of
      [calculatePoints]. *)
Lemma calculatePoints_split (p k : Z) :
  Tournament.calculatePoints p k = Tournament.calculatePoints p 0 + k.
Proof. unfold Tournament.calculatePoints. lia. Qed.

Lemma calculatePoints_table (p : Z) :
  Tournament.calculatePoints p 0 = Js.or0 (handleFileUpload_PLACEMENT_POINTS !! p).
Proof.
  destruct (decide (1 <= p <= 8)) as [Hin|Hout].
  - assert (Hp : p = 1 \/ p = 2 \/ p = 3 \/ p = 4 \/ p = 5 \/ p = 6 \/ p = 7 \/ p = 8) by lia.
    repeat (destruct Hp as [->|Hp]; [vm_compute; reflexivity|]).
    subst p. vm_compute; reflexivity.
  - rewrite table_zero by lia.
    unfold Tournament.calculatePoints.
    repeat match goal with
           | |- context [?a =? ?b] => destruct (Z.eqb_spec a b); [lia|]
           end.
    destruct (Z.leb_spec 7 p), (Z.leb_spec p 8); simpl; lia.
Qed.

(** C3. For every placement p >= 1 and kill count k >= 0 the upload-time
    computation of PlayerDashboard, [calculatePoints] as the admin edit of
    ScreenshotVerification applies it, and the placement-points tables of
    the two standings aggregations (plus the kills) give the same value. *)
Theorem scoring_call_sites_agree (p k : Z) :
  1 <= p -> 0 <= k ->
  upload_points (Some p) k = Tournament.calculatePoints p k
  /\ (forall r, points (ScreenshotVerification.edited p k r)
                = Some (upload_points (Some p) k))
  /\ AdminDashboard.placementPointsOf (Some p) + k = upload_points (Some p) k
  /\ fetchTeams_placementPoints (Some p) + k = upload_points (Some p) k.
Proof.
  intros _ _.
  assert (Hcalc : upload_points (Some p) k = Tournament.calculatePoints p k).
  { rewrite calculatePoints_split, calculatePoints_table. reflexivity. }
  destruct (aggregation_lookup (Some p)) as [-> ->].
  repeat split; auto.
  intros r. cbn [ScreenshotVerification.edited points]. by rewrite Hcalc.
Qed.

Lemma scoring_call_sites_agree_witness :
  1 <= 2 /\ 0 <= 7
  /\ upload_points (Some 2) 7 = Tournament.calculatePoints 2 7
  /\ AdminDashboard.placementPointsOf (Some 2) + 7 = upload_points (Some 2) 7.
Proof.
  split; [lia|]. split; [lia|].
  destruct (scoring_call_sites_agree 2 7 ltac:(lia) ltac:(lia)) as (H1 & _ & H3 & _).
  split; [exact H1 | exact H3].
Defined.

(** C6. For every placement rank p >= 1 and kill count k >= 0 the scoring
    computation returns a non-negative integer. *)
Theorem scoring_nonneg (p k : Z) :
  1 <= p -> 0 <= k -> 0 <= upload_points (Some p) k.
Proof.
  intros Hp Hk. unfold upload_points; cbn [prop].
  pose proof (table_nonneg p). lia.
Qed.

Lemma scoring_nonneg_witness : 1 <= 3 /\ 0 <= 0 /\ 0 <= upload_points (Some 3) 0.
Proof.
  split; [lia|]. split; [lia|].
  apply (scoring_nonneg 3 0); lia.
Defined.

End Scoring.

(** ** Standings aggregation *)
Section Standings.

(** A [reduce] that adds [f m] for every element is the sum of the [f m]. *)
Lemma reduce_sum {A} (f : A -> Z) (l : list A) (start : Z) :
  fold_left (fun sum m => sum + f m) l start = start + foldr Z.add 0 (map f l).
Proof.
  revert start. induction l as [|m l IH]; intros start; simpl.
  - lia.
  - rewrite IH. lia.
Qed.

(** The three accumulators of the [forEach] of PlayerDashboard after the
    whole list. *)
Lemma accumulate_fold (l : list MatchScreenshot) (t : PlayerDashboard.Totals) :
  fold_left PlayerDashboard.accumulate l t
  = PlayerDashboard.mkTotals
      (PlayerDashboard.acc_totalPoints t
         + foldr Z.add 0 (map (fun m => Js.or0 (points m)) l))
      (PlayerDashboard.acc_totalKills t
         + foldr Z.add 0 (map (fun m => Js.or0 (kills m)) l))
      (PlayerDashboard.acc_placementPoints t
         + foldr Z.add 0
             (map (fun m => PlayerDashboard.fetchTeams_placementPoints (placement m)) l)).
Proof.
  revert t. induction l as [|m l IH]; intros [tp tk pp]; simpl.
  - f_equal; lia.
  - rewrite IH. unfold PlayerDashboard.accumulate; simpl. f_equal; lia.
Qed.

(** The callback [m => m.team_id === team] selects the rows of the team. *)
Lemma team_filter (rows : list MatchScreenshot) (team : string) :
  List.filter (fun m => String.eqb (team_id m) team) rows
  = filter (fun m => team_id m = team) rows.
Proof.
  induction rows as [|m rows IH]; [reflexivity|].
  simpl. rewrite filter_cons, IH.
  destruct (String.eqb_spec (team_id m) team); case_decide; congruence.
Qed.

(** The callback [m => m.placement === 1] selects the first places. *)
Lemma first_place_filter (is_first : MatchScreenshot -> bool) (l : list MatchScreenshot) :
  (forall m, is_first m = match placement m with Some p => p =? 1 | None => false end) ->
  List.filter is_first l = filter (fun m => placement m = Some 1) l.
Proof.
  intros Hfirst. induction l as [|m l IH]; [reflexivity|].
  simpl. rewrite filter_cons, IH, Hfirst.
  destruct (placement m) as [p|]; [|case_decide; congruence].
  destruct (Z.eqb_spec p 1); case_decide; congruence.
Qed.

Lemma map_or0_default (f : MatchScreenshot -> option Z) (l : list MatchScreenshot) :
  map (fun m => Js.or0 (f m)) l = map (fun m => default 0 (f m)) l.
Proof. apply map_ext. intros m. apply or0_default. Qed.

(** C2. For every team of the tournament and the rows [rows] the
    [match_screenshots] query returned, the standings entry the aggregation
    builds (in AdminDashboard and in PlayerDashboard) has
    totalPoints equal to the sum of [points] over the team's screenshot rows
    (null as 0), totalKills equal to the sum of [kills] (null as 0), and
    firstPlaceWins equal to the number of the team's rows whose placement
    is 1. *)
Theorem standings_totals (teamsData : list TeamRow) (rows : list MatchScreenshot)
    (i : nat) (team : TeamRow) :
  teamsData !! i = Some team ->
  let mine := filter (fun m => team_id m = tr_id team) rows in
  let sum_of (column : MatchScreenshot -> option Z) :=
    foldr Z.add 0 (map (fun m => default 0 (column m)) mine) in
  let wins := Z.of_nat (length (filter (fun m => placement m = Some 1) mine)) in
  (exists t, AdminDashboard.teamsWithStats teamsData (Some rows) !! i = Some t
             /\ id t = tr_id team
             /\ totalPoints t = sum_of points
             /\ totalKills t = sum_of kills
             /\ firstPlaceWins t = wins)
  /\ (exists t, (PlayerDashboard.fetchTeams teamsData (Some rows)).2 !! i = Some t
             /\ id t = tr_id team
             /\ totalPoints t = sum_of points
             /\ totalKills t = sum_of kills
             /\ firstPlaceWins t = wins).
Proof.
  intros Hteam mine sum_of wins. split.
  - exists (AdminDashboard.teamStats (Some rows) team).
    unfold AdminDashboard.teamsWithStats. rewrite list_lookup_fmap, Hteam.
    split; [reflexivity|].
    unfold AdminDashboard.teamStats, AdminDashboard.teamMatches; cbn [id totalPoints totalKills firstPlaceWins].
    rewrite team_filter. fold mine.
    rewrite !reduce_sum, !map_or0_default.
    rewrite (first_place_filter AdminDashboard.is_first_place) by reflexivity.
    repeat split; unfold sum_of; lia.
  - exists (PlayerDashboard.teamStats (Some rows) team).
    unfold PlayerDashboard.fetchTeams; cbn [snd]. rewrite list_lookup_fmap, Hteam.
    split; [reflexivity|].
    unfold PlayerDashboard.teamStats, PlayerDashboard.teamMatches; cbn [id totalPoints totalKills firstPlaceWins].
    rewrite team_filter. fold mine.
    rewrite accumulate_fold; cbn [PlayerDashboard.acc_totalPoints PlayerDashboard.acc_totalKills].
    rewrite !map_or0_default.
    rewrite (first_place_filter PlayerDashboard.is_first_place) by reflexivity.
    repeat split; unfold sum_of; lia.
Qed.

Lemma standings_totals_witness :
    let teamsData := [mkTeamRow "t1" "Alpha"; mkTeamRow "t2" "Bravo"] in
    let rows :=
      [mkMatchScreenshot "t1" "u1" 1 "a.png" (Some 1) (Some 5) (Some 15) "";
       mkMatchScreenshot "t2" "u2" 1 "b.png" (Some 2) (Some 3) (Some 9) "";
       mkMatchScreenshot "t1" "u1" 2 "c.png" None None None "";
       mkMatchScreenshot "t1" "u3" 3 "d.png" (Some 4) (Some 3) (Some 7) ""] in
    teamsData !! 0%nat = Some (mkTeamRow "t1" "Alpha")
    /\ exists t, AdminDashboard.teamsWithStats teamsData (Some rows) !! 0%nat = Some t
                 /\ totalPoints t = 22 /\ totalKills t = 8 /\ firstPlaceWins t = 1.
Proof.
  intros teamsData rows. split; [reflexivity|].
  destruct (standings_totals teamsData rows 0 (mkTeamRow "t1" "Alpha") eq_refl)
    as [(t & Ht & _ & Hpoints & Hkills & Hwins) _].
  exists t. split; [exact Ht|].
  rewrite Hpoints, Hkills, Hwins. vm_compute. auto.
Defined.

End Standings.


(** ** The upload handler *)
Section UploadProperties.

Import PlayerDashboard.

Variable getPublicUrl : string -> string.

Lemma attempted_files_app (a b : list Event) :
  attempted_files (a ++ b) = attempted_files a ++ attempted_files b.
Proof. unfold attempted_files. apply omap_app. Qed.

Lemma attempted_rows_app (a b : list Event) :
  attempted_rows (a ++ b) = attempted_rows a ++ attempted_rows b.
Proof. unfold attempted_rows. apply omap_app. Qed.

(** A successful [storage_put] adds the file under a name that was free. *)
Lemma storage_put_Some (ok : bool) (fileName : string) (file : File)
    (st st' : gmap string File) :
  storage_put ok fileName file st = Some st' ->
  ok = true /\ st !! fileName = None /\ st' = <[fileName := file]> st.
Proof.
  unfold storage_put. destruct ok; simpl; [|discriminate].
  case_bool_decide; [|discriminate].
  intros [= <-]. auto.
Qed.

Lemma toasts_of_app (a b : list Event) :
  toasts_of (a ++ b) = toasts_of a ++ toasts_of b.
Proof. unfold toasts_of. apply omap_app. Qed.

Lemma invoked_urls_app (a b : list Event) :
  invoked_urls (a ++ b) = invoked_urls a ++ invoked_urls b.
Proof. unfold invoked_urls. apply omap_app. Qed.

(** The row the loop sends for an analysis answer that carries both
    properties and passed the [=== null] tests is a scored row. *)
Lemma sent_row_scored (s : State) (placement kills : Field) (url now : string) :
  placement <> field_undefined -> kills <> field_undefined ->
  is_null placement || is_null kills = false ->
  scored_row s
    (mkMatchScreenshot (selectedTeamId s) (userId s) (selectedDay s) url
       (column placement) (column kills) (upload_points_sent placement kills) now).
Proof.
  intros Hp Hk Hnull.
  destruct placement as [p| |]; [|discriminate|contradiction].
  destruct kills as [k| |]; [|discriminate|contradiction].
  split; [reflexivity|]. by exists p, k.
Qed.

(** What one turn of the loop does: it attempts exactly one storage upload,
    never removes a stored file, makes at most one analysis call and, after
    it, at most one insert, of a row of the selected team; the row added, if
    any, is the row of that insert; none is added when the file counts as
    failed; no toast is shown.  When the analysis answer carries both
    properties, the row of the insert is a scored row. *)
Lemma processFile_spec (s : State) (i : Z) (file : File) (r : Responses) (w : World) :
  let res := processFile getPublicUrl s i file r w in
  exists evs new,
    events res.1 = events w ++ storage_upload (fileNameOf s i file r) file :: evs
    /\ attempted_files evs = []
    /\ Forall (team_row s) (attempted_rows evs)
    /\ match_screenshots res.1 = match_screenshots w ++ new
    /\ Forall (team_row s) new
    /\ length new = (if res.2 then 1 else 0)%nat
    /\ storage w ⊆ storage res.1
    /\ toasts_of evs = []
    /\ (length (invoked_urls evs) <= 1)%nat
    /\ (length (attempted_rows evs) <= length (invoked_urls evs))%nat
    /\ incl new (attempted_rows evs)
    /\ (length new <= length (attempted_rows evs))%nat
    /\ (fields_present r -> Forall (scored_row s) (attempted_rows evs)).
Proof.
  unfold processFile.
  destruct (storage_put _ _ _ _) as [st|] eqn:Hput; cbn zeta.
  2: { exists [], []. simpl. rewrite app_nil_r.
       repeat split; auto using incl_nil_l. }
  apply storage_put_Some in Hput as (_ & Hfree & ->). simpl in Hfree.
  assert (Hsub : storage w ⊆ <[fileNameOf s i file r := file]> (storage w))
    by (by apply insert_subseteq).
  set (url := getPublicUrl (fileNameOf s i file r)).
  assert (Hfail : forall w', w' = emit (functions_invoke url)
             (set_storage (<[fileNameOf s i file r := file]> (storage w))
                (emit (storage_upload (fileNameOf s i file r) file) w)) ->
          exists evs new,
            events w' = events w ++ storage_upload (fileNameOf s i file r) file :: evs
            /\ attempted_files evs = []
            /\ Forall (team_row s) (attempted_rows evs)
            /\ match_screenshots w' = match_screenshots w ++ new
            /\ Forall (team_row s) new
            /\ length new = 0%nat
            /\ storage w ⊆ storage w'
            /\ toasts_of evs = []
            /\ (length (invoked_urls evs) <= 1)%nat
            /\ (length (attempted_rows evs) <= length (invoked_urls evs))%nat
            /\ incl new (attempted_rows evs)
            /\ (length new <= length (attempted_rows evs))%nat
            /\ (fields_present r -> Forall (scored_row s) (attempted_rows evs))).
  { intros w' ->. exists [functions_invoke url], []. simpl.
    rewrite <- app_assoc, app_nil_r.
    repeat split; auto using incl_nil_l. }
  destruct (analysis r) as [|[data|]] eqn:Han; [by apply Hfail| |by apply Hfail].
  destruct (is_null (a_placement data) || is_null (a_kills data)) eqn:Hnull;
    [by apply Hfail|].
  set (row := mkMatchScreenshot _ _ _ _ _ _ _ _).
  assert (Hteam : team_row s row) by reflexivity.
  assert (Hrow : fields_present r -> Forall (scored_row s) [row]).
  { intros Hpresent. destruct (Hpresent data Han) as [Hp Hk].
    constructor; [|constructor]. by apply sent_row_scored. }
  destruct (Migration.insert _ _ _) as [tbl|] eqn:Hins.
  - unfold Migration.insert in Hins.
    destruct (_ && _); [|discriminate]. injection Hins as <-.
    exists [functions_invoke url; db_insert row], [row]. simpl.
    rewrite <- !app_assoc.
    repeat split; auto using incl_refl.
  - exists [functions_invoke url; db_insert row], []. simpl.
    rewrite <- !app_assoc, app_nil_r.
    repeat split; auto using incl_nil_l.
Qed.

(** The loop as a whole: every file is attempted once, in order; stored
    files stay; the rows added are rows of the selected team, one per
    success, each the row of an insert; there are at most as many analysis
    calls as files and at most as many inserts as analysis calls; no toast is
    shown.  When every analysis answer carries both properties, the rows of
    the inserts are scored rows. *)
Lemma processFiles_spec (s : State) (resp : Z -> Responses) (files : list File) :
  forall (i : Z) (w : World) (successCount failCount : Z),
  let res := processFiles getPublicUrl s resp i files (w, successCount, failCount) in
  exists evs new,
    events res.1.1 = events w ++ evs
    /\ attempted_files evs = files
    /\ Forall (team_row s) (attempted_rows evs)
    /\ match_screenshots res.1.1 = match_screenshots w ++ new
    /\ Forall (team_row s) new
    /\ storage w ⊆ storage res.1.1
    /\ res.1.2 = successCount + Z.of_nat (length new)
    /\ res.1.2 + res.2 = successCount + failCount + Z.of_nat (length files)
    /\ toasts_of evs = []
    /\ (length (invoked_urls evs) <= length files)%nat
    /\ (length (attempted_rows evs) <= length (invoked_urls evs))%nat
    /\ incl new (attempted_rows evs)
    /\ (length new <= length (attempted_rows evs))%nat
    /\ ((forall j, i <= j < i + Z.of_nat (length files) -> fields_present (resp j)) ->
        Forall (scored_row s) (attempted_rows evs)).
Proof.
  induction files as [|file rest IH]; intros i w successCount failCount.
  - exists [], []. simpl. rewrite !app_nil_r.
    repeat split; auto using incl_nil_l; lia.
  - cbn [processFiles].
    destruct (processFile_spec s i file (resp i) w)
      as (evs1 & new1 & Hev1 & Hat1 & Hrows1 & Htbl1 & Hnew1 & Hlen1 & Hst1
          & Hto1 & Hinv1 & Hins1 & Hincl1 & Hle1 & Hsc1).
    destruct (processFile getPublicUrl s i file (resp i) w) as [w1 ok]; cbn [fst snd] in *.
    set (acc := if ok then _ else _).
    assert (Hacc : acc = (w1, successCount + Z.of_nat (length new1),
                          failCount + 1 - Z.of_nat (length new1))).
    { subst acc. rewrite Hlen1. destruct ok; simpl; f_equal; try f_equal; lia. }
    rewrite Hacc.
    destruct (IH (i + 1) w1 (successCount + Z.of_nat (length new1))
                (failCount + 1 - Z.of_nat (length new1)))
      as (evs2 & new2 & Hev2 & Hat2 & Hrows2 & Htbl2 & Hnew2 & Hst2 & Hsc2 & Hsum2
          & Hto2 & Hinv2 & Hins2 & Hincl2 & Hle2 & Hscored2).
    exists (storage_upload (fileNameOf s i file (resp i)) file :: evs1 ++ evs2),
           (new1 ++ new2).
    rewrite Hev2, Hev1, Htbl2, Htbl1, Hsc2, <- !app_assoc.
    change (storage_upload ?n ?f :: ?l) with ([storage_upload n f] ++ l).
    rewrite !attempted_files_app, !attempted_rows_app, !toasts_of_app,
      !invoked_urls_app, Hat1, Hat2, Hto1, Hto2, !length_app.
    split; [reflexivity|]. split; [reflexivity|].
    split; [apply Forall_app; split; [constructor|]; apply Forall_app; auto|].
    split; [reflexivity|].
    split; [apply Forall_app; auto|].
    split; [by transitivity (storage w1)|].
    split; [lia|].
    split; [rewrite Hsc2 in Hsum2; simpl length; lia|].
    split; [reflexivity|].
    split; [simpl length; lia|].
    split; [simpl length; lia|].
    split.
    { simpl app. apply incl_app; [by apply incl_appl|by apply incl_appr]. }
    split; [simpl length; lia|].
    intros Hpresent. simpl app.
    apply Forall_app. split.
    + apply Hsc1. apply Hpresent. simpl length. lia.
    + apply Hscored2. intros j Hj. apply Hpresent. simpl length. lia.
Qed.

(** The closing toasts touch neither the bucket nor the table. *)
Lemma showResults_spec (successCount failCount : Z) (w : World) :
  let w' := showResults successCount failCount w in
  storage w' = storage w
  /\ match_screenshots w' = match_screenshots w
  /\ exists toasts, events w' = events w ++ toasts
                    /\ attempted_files toasts = []
                    /\ attempted_rows toasts = [].
Proof.
  unfold showResults.
  destruct (successCount >? 0), (failCount >? 0); simpl;
    repeat split; auto; rewrite <- ?app_assoc;
    try (by eexists; split; [reflexivity|]); by exists []; rewrite app_nil_r.
Qed.

(** The count [fetchTeams] stores for a team of the tournament is the number
    of the fetched rows of that team. *)
Lemma uploadCounts_lookup (data : list TeamRow)
    (allMatches : option (list MatchScreenshot)) (team : string) :
  In team (map tr_id data) ->
  uploadCounts data allMatches !! team
  = Some (Z.of_nat (length (teamMatches allMatches team))).
Proof.
  unfold uploadCounts. generalize (∅ : gmap string Z).
  induction data as [|t data IH]; intros counts Hin; [destruct Hin|].
  cbn [fold_left].
  destruct (in_dec String.string_dec team (map tr_id data)) as [Hrest|Hrest].
  - by apply IH.
  - destruct Hin as [<-|Hin]; [|contradiction].
    clear IH. revert counts Hrest.
    induction data as [|t' data IH]; intros counts Hrest; cbn [fold_left].
    + apply lookup_insert_eq.
    + assert (Hne : tr_id t' <> tr_id t) by (intros Heq; apply Hrest; left; exact Heq).
      rewrite insert_insert_ne by exact Hne.
      apply IH. intros Hin. apply Hrest. right. exact Hin.
Qed.


(** C9. A selection of more than 4 files is rejected as a whole before any
    storage upload or insert: the bucket and the table are unchanged and the
    only effect is an error toast, which, when a team is selected and the
    12-screenshot checks (evaluated first) pass, is the batch-size message.
    So no batch of more than 4 files is processed. *)
Theorem oversized_batch_rejected (s : State) (files : list File)
    (resp : Z -> Responses) (w : World) :
  let currentUploads := Js.or0 (teamUploadCounts s !! selectedTeamId s) in
  let w' := handleFileUpload getPublicUrl s files resp w in
  4 < Z.of_nat (length files) ->
  (exists msg, w' = emit (toast_error msg) w)
  /\ storage w' = storage w
  /\ match_screenshots w' = match_screenshots w
  /\ attempted_files (events w') = attempted_files (events w)
  /\ attempted_rows (events w') = attempted_rows (events w)
  /\ (Js.str_falsy (selectedTeamId s) = false ->
      currentUploads < 12 ->
      currentUploads + Z.of_nat (length files) <= 12 ->
      w' = emit (toast_error "You can only upload up to 4 screenshots at once") w).
Proof.
  intros currentUploads w' Hlen.
  assert (Hw' : (exists msg, w' = emit (toast_error msg) w)
                /\ (Js.str_falsy (selectedTeamId s) = false ->
                    currentUploads < 12 ->
                    currentUploads + Z.of_nat (length files) <= 12 ->
                    w' = emit (toast_error "You can only upload up to 4 screenshots at once") w)).
  { subst w'. unfold handleFileUpload. cbn zeta. fold currentUploads.
    destruct (Z.eqb_spec (Z.of_nat (length files)) 0) as [Hz|_]; [lia|].
    destruct (Js.str_falsy (selectedTeamId s)); [split; [by eexists|discriminate]|].
    rewrite Z.geb_leb.
    destruct (Z.leb_spec 12 currentUploads); [split; [by eexists|lia]|].
    rewrite Z.gtb_ltb.
    destruct (Z.ltb_spec 12 (currentUploads + Z.of_nat (length files)));
      [split; [by eexists|lia]|].
    rewrite Z.gtb_ltb.
    destruct (Z.ltb_spec 4 (Z.of_nat (length files))); [|lia].
    split; [by eexists|auto]. }
  destruct Hw' as [[msg Hmsg] Hsize].
  split; [by exists msg|].
  rewrite Hmsg. cbn [emit storage match_screenshots events].
  rewrite attempted_files_app, attempted_rows_app. simpl.
  rewrite !app_nil_r. rewrite <- Hmsg. auto.
Qed.




End UploadProperties.



Lemma oversized_batch_rejected_witness :
  let s := Sample.player 3 in
  let files := replicate 5 Sample.shot in
  let w' := PlayerDashboard.handleFileUpload Sample.url s files Sample.all_fine
              Sample.empty_world in
  4 < Z.of_nat (length files)
  /\ w' = emit (toast_error "You can only upload up to 4 screenshots at once")
            Sample.empty_world.
Proof.
  intros s files w'.
  assert (Hlen : 4 < Z.of_nat (length files)) by (vm_compute; reflexivity).
  split; [exact Hlen|].
  destruct (oversized_batch_rejected Sample.url s files Sample.all_fine
              Sample.empty_world Hlen) as (_ & _ & _ & _ & _ & Hmsg).
  apply Hmsg.
  - reflexivity.
  - vm_compute; reflexivity.
  - vm_compute; discriminate.
Defined.




(** ** The day of a screenshot *)
Section Day.

Import PlayerDashboard.

Lemma day_check_spec (d : Z) : Migration.day_check d = true <-> d = 1 \/ d = 2 \/ d = 3.
Proof. unfold Migration.day_check. rewrite andb_true_iff, Z.leb_le, Z.leb_le. lia. Qed.

(** The check constraint holds of every row of a reachable table. *)
Lemma reachable_checked (tbl : list MatchScreenshot) :
  Migration.reachable tbl ->
  Forall (fun r => Migration.day_check (day r) = true) tbl.
Proof.
  induction 1 as [rows|a r tbl tbl' _ IH Hins|a i r tbl tbl' _ IH Hupd|i tbl _ IH].
  - unfold Migration.add_day_column. apply Forall_fmap, Forall_true. reflexivity.
  - unfold Migration.insert in Hins.
    destruct a; [|discriminate]. cbn [andb] in Hins.
    destruct (Migration.day_check (day r)) eqn:Hday; [|discriminate].
    injection Hins as <-. apply Forall_app. split; [exact IH|]. by constructor.
  - unfold Migration.update in Hupd.
    destruct a; [|discriminate]. cbn [andb] in Hupd.
    destruct (Migration.day_check (day r)) eqn:Hday; [|discriminate].
    injection Hupd as <-. by apply Forall_insert.
  - unfold Migration.delete_row. apply Forall_app.
    split; [by apply Forall_take | by apply Forall_drop].
Qed.

(** The upload loop only changes the table through [Migration.insert]. *)
Lemma processFiles_reachable (getPublicUrl : string -> string) (s : State)
    (resp : Z -> Responses) (files : list File) :
  forall (i : Z) (w : World) (successCount failCount : Z),
  Migration.reachable (match_screenshots w) ->
  Migration.reachable
    (match_screenshots
       (processFiles getPublicUrl s resp i files (w, successCount, failCount)).1.1).
Proof.
  induction files as [|file rest IH]; intros i w successCount failCount Hw; [exact Hw|].
  cbn [processFiles].
  assert (Hstep : Migration.reachable
                    (match_screenshots (processFile getPublicUrl s i file (resp i) w).1)).
  { unfold processFile.
    repeat match goal with
           | |- context [match ?x with _ => _ end] =>
               lazymatch x with
               | Migration.insert _ _ _ => fail
               | _ => destruct x; try exact Hw
               end
           end.
    destruct (Migration.insert _ _ _) as [tbl|] eqn:Hins; [|exact Hw].
    eapply Migration.reach_insert; [|exact Hins]. exact Hw. }
  destruct (processFile getPublicUrl s i file (resp i) w) as [w1 ok].
  destruct ok; by apply IH.
Qed.

Lemma handleFileUpload_reachable (getPublicUrl : string -> string) (s : State)
    (files : list File) (resp : Z -> Responses) (w : World) :
  Migration.reachable (match_screenshots w) ->
  Migration.reachable (match_screenshots (handleFileUpload getPublicUrl s files resp w)).
Proof.
  intros Hw. unfold handleFileUpload. cbn zeta.
  repeat match goal with
         | |- context [if ?b then _ else _] => destruct b; [exact Hw|]
         end.
  pose proof (processFiles_reachable getPublicUrl s resp files 0 w 0 0 Hw) as Hloop.
  destruct (processFiles getPublicUrl s resp 0 files (w, 0, 0))
    as [[w1 successCount] failCount]; cbn [fst snd] in Hloop.
  by destruct (showResults_spec successCount failCount w1) as (_ & -> & _).
Qed.

(** C5. Every row of [match_screenshots] has a day in {1, 2, 3}: this holds
    of every table reachable from the migration by inserts, updates and
    deletes, the uploads of PlayerDashboard and the edits of
    ScreenshotVerification among them; an insert or an update with a day
    outside the range is rejected and leaves no new table; and the day select
    of the upload form offers exactly the days 1, 2 and 3, starting from 1. *)
Theorem day_constraint :
  (forall tbl, Migration.reachable tbl ->
     forall r, In r tbl -> day r = 1 \/ day r = 2 \/ day r = 3)
  /\ (forall accepted i r tbl,
        ~ (1 <= day r <= 3) ->
        Migration.insert accepted r tbl = None
        /\ Migration.update accepted i r tbl = None)
  /\ (forall getPublicUrl s files resp w,
        Migration.reachable (match_screenshots w) ->
        Migration.reachable
          (match_screenshots (handleFileUpload getPublicUrl s files resp w)))
  /\ (forall selected editPlacement editKills accepted tbl tbl',
        Migration.reachable tbl ->
        ScreenshotVerification.handleUpdate selected editPlacement editKills accepted tbl
        = Some tbl' ->
        Migration.reachable tbl')
  /\ (forall v s, In v daySelectItems ->
        exists s', daySelect_onValueChange v s = Some s'
                   /\ (selectedDay s' = 1 \/ selectedDay s' = 2 \/ selectedDay s' = 3))
  /\ omap Js.parseInt daySelectItems = [1; 2; 3]
  /\ selectedDay_initial = 1.
Proof.
  split; [|split; [|split; [|split; [|split; [|split]]]]].
  - intros tbl Htbl r Hr. apply day_check_spec.
    pose proof (reachable_checked tbl Htbl) as Hall.
    rewrite Forall_forall in Hall. apply Hall. by apply list_elem_of_In.
  - intros accepted i r tbl Hday.
    assert (Hcheck : Migration.day_check (day r) = false).
    { destruct (Migration.day_check (day r)) eqn:Hc; [|reflexivity].
      apply day_check_spec in Hc. lia. }
    unfold Migration.insert, Migration.update. rewrite Hcheck, andb_false_r. auto.
  - intros. by apply handleFileUpload_reachable.
  - intros selected p k accepted tbl tbl' Htbl Hupd.
    unfold ScreenshotVerification.handleUpdate in Hupd.
    destruct selected as [i|]; [|by injection Hupd as <-].
    destruct (tbl !! i) as [r|].
    + by eapply Migration.reach_update.
    + destruct accepted; [by injection Hupd as <-|discriminate].
  - intros v s Hv. cbn [daySelectItems In] in Hv.
    destruct Hv as [<-|[<-|[<-|[]]]]; eexists; (split; [reflexivity|]); cbn; auto.
  - reflexivity.
  - reflexivity.
Qed.

Lemma day_constraint_witness :
  let r := mkMatchScreenshot "teamA" "u1" 4 "x.png" (Some 1) (Some 0) (Some 10) "" in
  ~ (1 <= day r <= 3)
  /\ Migration.insert true r [Sample.row_A] = None
  /\ Migration.update true 0 r [Sample.row_A] = None.
Proof.
  intros r.
  assert (Hday : ~ (1 <= day r <= 3)) by (cbn; lia).
  split; [exact Hday|].
  destruct day_constraint as (_ & Hreject & _).
  exact (Hreject true 0%nat r [Sample.row_A] Hday).
Defined.

End Day.

(** ** The access-code login *)
Section Login.

Import Auth.

Variable trim : string -> string.
Variable toUpperCase : string -> string.

(** The flow changes [sessions] in one case only, and then by one row. *)
Lemma handleAccessCode_sessions (accessCode : string) (r : Auth.Responses) (b : Backend) :
  let code := toUpperCase (trim accessCode) in
  let b' := handleAccessCode trim toUpperCase accessCode r b in
  sessions b' = sessions b
  \/ exists user data,
       Js.str_falsy (trim accessCode) = false
       /\ signIn r = authData (Some user)
       /\ validate_access_code r code = codeData (Some data)
       /\ session_ok r = true
       /\ sessions b' = sessions b ++ [mkSessionRow user code (code_role data) (code_team_id data)]
       /\ auth_user b' = Some user.
Proof.
  unfold handleAccessCode.
  destruct (Js.str_falsy (trim accessCode)); [by left|].
  destruct (signIn r) as [|[user|]]; [by left| |by left].
  destruct (validate_access_code r _) as [|[data|]] eqn:Hcode; [by left| |by left].
  unfold insert_session.
  destruct (session_ok r); [|by left].
  right. exists user, data. by repeat split.
Qed.

(** C10. In the access-code login, once the anonymous sign-in has succeeded:
    if [validate_access_code] fails or returns no data for the entered code,
    or the [sessions] insert fails, the flow signs the user out and
    [sessions] is as it was; and whatever happens, a row is added to
    [sessions] only when the validation succeeded, in which case it is the
    one row with the signed-in user, the code, and the role and team the
    validation returned. *)
Theorem access_code_login (accessCode : string) (r : Auth.Responses) (b : Backend) :
  let code := toUpperCase (trim accessCode) in
  let b' := handleAccessCode trim toUpperCase accessCode r b in
  (forall user,
      Js.str_falsy (trim accessCode) = false ->
      signIn r = authData (Some user) ->
      validate_access_code r code = codeError
      \/ validate_access_code r code = codeData None
      \/ session_ok r = false ->
      auth_user b' = None /\ sessions b' = sessions b)
  /\ (sessions b' = sessions b
      \/ exists user data,
           signIn r = authData (Some user)
           /\ validate_access_code r code = codeData (Some data)
           /\ sessions b' = sessions b ++ [mkSessionRow user code (code_role data) (code_team_id data)]
           /\ auth_user b' = Some user).
Proof.
  intros code b'. split.
  - intros user Hcode Hsign Hfail. subst b'. unfold handleAccessCode.
    rewrite Hcode, Hsign. fold code.
    destruct (validate_access_code r code) as [|[data|]]; [by auto| |by auto].
    destruct Hfail as [Hf|[Hf|Hf]]; [discriminate..|].
    unfold insert_session. rewrite Hf. by auto.
  - destruct (handleAccessCode_sessions accessCode r b)
      as [Hsame|(user & data & _ & Hsign & Hcode & _ & Hrow & Huser)]; [by left|].
    right. by exists user, data.
Qed.

End Login.

Lemma access_code_login_witness :
  let r := Auth.mkResponses (Auth.authData (Some "anon-1"%string))
             (fun code => if String.eqb code "ADMIN2025"
                          then Auth.codeData (Some (Auth.mkCodeData "admin" None))
                          else Auth.codeError)
             true in
  let b := Auth.mkBackend None [] [] in
  let b' := Auth.handleAccessCode Auth.trim_ascii Auth.toUpperCase_ascii " guess " r b in
  Js.str_falsy (Auth.trim_ascii " guess ") = false
  /\ Auth.validate_access_code r (Auth.toUpperCase_ascii (Auth.trim_ascii " guess "))
     = Auth.codeError
  /\ Auth.auth_user b' = None
  /\ Auth.sessions b' = [].
Proof.
  intros r b b'.
  assert (Hcode : Js.str_falsy (Auth.trim_ascii " guess ") = false) by reflexivity.
  assert (Hfail : Auth.validate_access_code r
                    (Auth.toUpperCase_ascii (Auth.trim_ascii " guess "))
                  = Auth.codeError) by reflexivity.
  split; [exact Hcode|]. split; [exact Hfail|].
  destruct (access_code_login Auth.trim_ascii Auth.toUpperCase_ascii " guess " r b)
    as [Hout _].
  exact (Hout "anon-1"%string Hcode eq_refl (or_introl Hfail)).
Defined.

(** * Further properties *)

(** ** The upload handler: which batches are accepted, and what is reported *)
Section UploadBatches.

Import PlayerDashboard.

Variable getPublicUrl : string -> string.

(** The guards of [handleFileUpload], in the order they are evaluated: a call
    either does nothing (no file selected), or refuses with one error toast
    because some guard fails, or passes every guard and is the loop followed
    by the closing toasts. *)
Lemma handleFileUpload_cases (s : State) (files : list File)
    (resp : Z -> Responses) (w : World) :
  let currentUploads := Js.or0 (teamUploadCounts s !! selectedTeamId s) in
  let w' := handleFileUpload getPublicUrl s files resp w in
  (files = [] /\ w' = w)
  \/ (files <> []
      /\ (Js.str_falsy (selectedTeamId s) = true
          \/ 12 <= currentUploads
          \/ 12 < currentUploads + Z.of_nat (length files)
          \/ 4 < Z.of_nat (length files)
          \/ exists bad, In bad files /\ Js.startsWith (file_type bad) "image/" = false)
      /\ exists msg, w' = emit (toast_error msg) w)
  \/ (files <> []
      /\ Js.str_falsy (selectedTeamId s) = false
      /\ currentUploads < 12
      /\ currentUploads + Z.of_nat (length files) <= 12
      /\ Z.of_nat (length files) <= 4
      /\ Forall (fun file => Js.startsWith (file_type file) "image/" = true) files
      /\ w' = showResults
                (processFiles getPublicUrl s resp 0 files (w, 0, 0)).1.2
                (processFiles getPublicUrl s resp 0 files (w, 0, 0)).2
                (processFiles getPublicUrl s resp 0 files (w, 0, 0)).1.1).
Proof.
  intros currentUploads w'. subst w'. unfold handleFileUpload. cbn zeta.
  fold currentUploads.
  destruct (Z.eqb_spec (Z.of_nat (length files)) 0) as [Hz|Hnz].
  { left. split; [|reflexivity]. destruct files; [reflexivity|simpl in Hz; lia]. }
  assert (Hne : files <> []) by (intros ->; apply Hnz; reflexivity).
  right.
  destruct (Js.str_falsy (selectedTeamId s)) eqn:Hteam;
    [left; split; [exact Hne|split; [by auto|by eexists]]|].
  rewrite Z.geb_leb.
  destruct (Z.leb_spec 12 currentUploads);
    [left; split; [exact Hne|split; [by auto|by eexists]]|].
  rewrite Z.gtb_ltb.
  destruct (Z.ltb_spec 12 (currentUploads + Z.of_nat (length files)));
    [left; split; [exact Hne|split; [by auto|by eexists]]|].
  rewrite Z.gtb_ltb.
  destruct (Z.ltb_spec 4 (Z.of_nat (length files)));
    [left; split; [exact Hne|split; [by auto 6|by eexists]]|].
  rewrite Z.gtb_ltb.
  destruct (List.filter is_invalid files) as [|bad rest] eqn:Hfilter.
  - right. repeat split; auto.
    + apply Forall_forall. intros file Hin.
      destruct (Js.startsWith (file_type file) "image/") eqn:Himg; [reflexivity|].
      assert (Hf : In file (List.filter is_invalid files)).
      { apply filter_In. split; [by apply list_elem_of_In|].
        unfold is_invalid. by rewrite Himg. }
      rewrite Hfilter in Hf. destruct Hf.
    + cbn. by destruct (processFiles getPublicUrl s resp 0 files (w, 0, 0)) as [[w1 sc] fc].
  - left. split; [exact Hne|]. split; [|cbn [length]; by eexists].
    do 4 right. exists bad.
    assert (Hbad : In bad (List.filter is_invalid files)) by (rewrite Hfilter; by left).
    apply filter_In in Hbad as [Hin Hinv]. split; [exact Hin|].
    unfold is_invalid in Hinv. by destruct (Js.startsWith (file_type bad) "image/").
Qed.

(** Neither counter of the loop ever decreases. *)
Lemma processFiles_counters (s : State) (resp : Z -> Responses) (files : list File) :
  forall (i : Z) (w : World) (successCount failCount : Z),
  let res := processFiles getPublicUrl s resp i files (w, successCount, failCount) in
  successCount <= res.1.2 /\ failCount <= res.2.
Proof.
  induction files as [|file rest IH]; intros i w successCount failCount; [simpl; lia|].
  cbn [processFiles].
  destruct (processFile getPublicUrl s i file (resp i) w) as [w1 ok].
  destruct ok.
  - pose proof (IH (i + 1) w1 (successCount + 1) failCount). simpl in *. lia.
  - pose proof (IH (i + 1) w1 successCount (failCount + 1)). simpl in *. lia.
Qed.

(** X1. A selection that contains a file whose type does not start with
    "image/" is refused as a whole: the only effect is one error toast, and
    no file of the selection, image or not, is uploaded or analysed. *)
Theorem non_image_batch_rejected (s : State) (files : list File)
    (resp : Z -> Responses) (w : World) (bad : File) :
  In bad files ->
  Js.startsWith (file_type bad) "image/" = false ->
  exists msg,
    handleFileUpload getPublicUrl s files resp w = emit (toast_error msg) w.
Proof.
  intros Hin Hbad.
  destruct (handleFileUpload_cases s files resp w)
    as [[-> _]|[(_ & _ & Hmsg)|(_ & _ & _ & _ & _ & Himg & _)]].
  - destruct Hin.
  - exact Hmsg.
  - rewrite Forall_forall in Himg.
    rewrite (Himg bad) in Hbad by (by apply list_elem_of_In). discriminate.
Qed.

(** The toasts [showResults] adds for the two counters. *)
Lemma showResults_events (successCount failCount : Z) (w : World) :
  events (showResults successCount failCount w)
  = events w
    ++ (if 0 <? successCount
        then [toast_success ("Successfully uploaded " +:+ Js.toString successCount
                               +:+ " screenshot" +:+ plural successCount +:+ "!")]
        else [])
    ++ (if 0 <? failCount
        then [toast_error ("Failed to process " +:+ Js.toString failCount
                             +:+ " screenshot" +:+ plural failCount)]
        else []).
Proof.
  unfold showResults. rewrite !Z.gtb_ltb.
  destruct (0 <? successCount), (0 <? failCount); simpl;
    rewrite <- ?app_assoc, ?app_nil_r; reflexivity.
Qed.

(** X2. When a selection passes every guard (a team is selected, the held
    count is below 12 and stays within 12 with the selection, at most 4
    files, all images), every file is attempted exactly once and in order,
    no toast is shown while the files are processed, and the closing toasts
    tell the truth: the success toast appears exactly when at least one row
    was added and carries the number of rows added, the error toast appears
    exactly when some file added no row and carries the number of such
    files; there is no other toast. *)
Theorem accepted_batch_report (s : State) (files : list File)
    (resp : Z -> Responses) (w : World) :
  let currentUploads := Js.or0 (teamUploadCounts s !! selectedTeamId s) in
  let w' := handleFileUpload getPublicUrl s files resp w in
  files <> [] ->
  Js.str_falsy (selectedTeamId s) = false ->
  currentUploads < 12 ->
  currentUploads + Z.of_nat (length files) <= 12 ->
  Z.of_nat (length files) <= 4 ->
  Forall (fun file => Js.startsWith (file_type file) "image/" = true) files ->
  exists calls new,
    let added := Z.of_nat (length new) in
    let failed := Z.of_nat (length files) - added in
    match_screenshots w' = match_screenshots w ++ new
    /\ 0 <= failed
    /\ attempted_files calls = files
    /\ toasts_of calls = []
    /\ events w'
       = events w ++ calls
         ++ (if 0 <? added
             then [toast_success ("Successfully uploaded " +:+ Js.toString added
                                    +:+ " screenshot" +:+ plural added +:+ "!")]
             else [])
         ++ (if 0 <? failed
             then [toast_error ("Failed to process " +:+ Js.toString failed
                                  +:+ " screenshot" +:+ plural failed)]
             else []).
Proof.
  intros currentUploads w' Hne Hteam Hlt Hsum Hfour Himg.
  destruct (handleFileUpload_cases s files resp w)
    as [[-> _]|[(_ & Hwhy & _)|(_ & _ & _ & _ & _ & _ & Hloop)]].
  - by destruct Hne.
  - exfalso. fold currentUploads in Hwhy.
    destruct Hwhy as [Hf|[Hf|[Hf|[Hf|(bad & Hin & Hbad)]]]]; try congruence; try lia.
    rewrite Forall_forall in Himg.
    rewrite (Himg bad) in Hbad by (by apply list_elem_of_In). discriminate.
  - destruct (processFiles_spec getPublicUrl s resp files 0 w 0 0)
      as (evs & new & Hev & Hat & _ & Htbl & _ & _ & Hsc & Hcount & Hto & _).
    destruct (processFiles_counters s resp files 0 w 0 0) as [_ Hfc0].
    destruct (processFiles getPublicUrl s resp 0 files (w, 0, 0)) as [[w1 sc] fc].
    cbn [fst snd] in *.
    exists evs, new. cbn zeta.
    destruct (showResults_spec sc fc w1) as (_ & Htbl' & _).
    subst w'. rewrite Hloop, Htbl', Htbl, showResults_events, Hev.
    assert (Hsc' : sc = Z.of_nat (length new)) by lia.
    assert (Hfc : fc = Z.of_nat (length files) - Z.of_nat (length new)) by lia.
    rewrite <- Hfc, <- Hsc', <- app_assoc.
    repeat split; auto.
Qed.

(** What a call adds: rows of the selected team at the end of the table, none
    when a guard refuses, at most one per file otherwise; the files it
    attempts are none or the whole selection; the bucket only grows. *)
Lemma handleFileUpload_added (s : State) (files : list File)
    (resp : Z -> Responses) (w : World) :
  let currentUploads := Js.or0 (teamUploadCounts s !! selectedTeamId s) in
  let w' := handleFileUpload getPublicUrl s files resp w in
  exists new,
    match_screenshots w' = match_screenshots w ++ new
    /\ Forall (team_row s) new
    /\ storage w ⊆ storage w'
    /\ (new = [] /\ attempted_files (events w') = attempted_files (events w)
        \/ currentUploads + Z.of_nat (length files) <= 12
           /\ (length new <= length files)%nat
           /\ (length files <= 4)%nat
           /\ attempted_files (events w') = attempted_files (events w) ++ files).
Proof.
  intros currentUploads w'.
  destruct (handleFileUpload_cases s files resp w)
    as [[_ Hw]|[(_ & _ & msg & Hw)|(_ & _ & _ & Hsum & Hfour & _ & Hloop)]];
    fold w' in Hw || fold w' in Hloop.
  - exists []. rewrite Hw, app_nil_r. repeat split; auto.
  - exists []. rewrite Hw, app_nil_r. cbn [emit match_screenshots storage events].
    rewrite attempted_files_app. cbn. rewrite app_nil_r. repeat split; auto.
  - destruct (processFiles_spec getPublicUrl s resp files 0 w 0 0)
      as (evs & new & Hev & Hat & _ & Htbl & Hnew & Hst & Hsc & Hcount & _).
    destruct (processFiles_counters s resp files 0 w 0 0) as [_ Hfc0].
    destruct (processFiles getPublicUrl s resp 0 files (w, 0, 0)) as [[w1 sc] fc].
    cbn [fst snd] in *.
    destruct (showResults_spec sc fc w1) as (Hst' & Htbl' & toasts & Hev' & Htoasts & _).
    exists new. rewrite Hloop, Htbl', Htbl, Hst', Hev', Hev.
    rewrite !attempted_files_app, Hat, Htoasts, app_nil_r.
    repeat split; auto. right. fold currentUploads in Hsum. repeat split; auto; lia.
Qed.

(** X3. An upload only adds: the rows present before are still there, in
    place and unchanged, followed by at most 4 new rows, at most one per
    selected file, all of the selected team; and every file stored in the
    bucket before is still stored under its name. *)
Theorem upload_only_adds (s : State) (files : list File)
    (resp : Z -> Responses) (w : World) :
  let w' := handleFileUpload getPublicUrl s files resp w in
  exists new,
    match_screenshots w' = match_screenshots w ++ new
    /\ (length new <= 4)%nat
    /\ (length new <= length files)%nat
    /\ (forall row, In row new -> team_id row = selectedTeamId s)
    /\ (forall name file, storage w !! name = Some file -> storage w' !! name = Some file).
Proof.
  intros w'.
  destruct (handleFileUpload_added s files resp w)
    as (new & Htbl & Hnew & Hst & Hcases).
  exists new. split; [exact Htbl|].
  assert (Hlen : (length new <= 4)%nat /\ (length new <= length files)%nat).
  { destruct Hcases as [[-> _]|(_ & ? & ? & _)]; simpl; lia. }
  split; [apply Hlen|]. split; [apply Hlen|]. split.
  - intros row Hin. rewrite Forall_forall in Hnew.
    apply (Hnew row). by apply list_elem_of_In.
  - intros name file Hname. by eapply lookup_weaken.
Qed.


(** X5. When the [match_screenshots] query of [fetchTeams] fails, every
    fetched team is counted as having no upload, so the cap does not stop
    anything: a selection of 1 to 4 images for such a team is attempted in
    full, however many rows the team has. *)
Theorem failed_count_query_disables_cap (s0 : State) (data : list TeamRow)
    (files : list File) (resp : Z -> Responses) (w : World) :
  let s := fetchTeams_state data None s0 in
  let w' := handleFileUpload getPublicUrl s files resp w in
  In (selectedTeamId s) (map tr_id data) ->
  Js.str_falsy (selectedTeamId s) = false ->
  files <> [] ->
  (length files <= 4)%nat ->
  Forall (fun file => Js.startsWith (file_type file) "image/" = true) files ->
  teamUploadCounts s !! selectedTeamId s = Some 0
  /\ attempted_files (events w') = attempted_files (events w) ++ files.
Proof.
  intros s w' Hin Hteam Hne Hfour Himg.
  assert (Hzero : teamUploadCounts s !! selectedTeamId s = Some 0).
  { subst s. cbn [fetchTeams_state teamUploadCounts selectedTeamId fetchTeams fst] in *.
    by rewrite uploadCounts_lookup by exact Hin. }
  split; [exact Hzero|].
  destruct (handleFileUpload_cases s files resp w)
    as [[-> _]|[(_ & Hwhy & _)|(_ & _ & _ & _ & _ & _ & Hloop)]].
  - by destruct Hne.
  - exfalso. rewrite Hzero in Hwhy. change (Js.or0 (Some 0)) with 0 in Hwhy.
    destruct Hwhy as [Hf|[Hf|[Hf|[Hf|(bad & Hbad & Hty)]]]]; try congruence; try lia.
    rewrite Forall_forall in Himg.
    rewrite (Himg bad) in Hty by (by apply list_elem_of_In). discriminate.
  - destruct (handleFileUpload_added s files resp w)
      as (new & _ & _ & _ & [[_ Hsame]|(_ & _ & _ & Hall)]); [|exact Hall].
    exfalso. fold w' in Hloop, Hsame.
    destruct (processFiles_spec getPublicUrl s resp files 0 w 0 0)
      as (evs & _ & Hev & Hat & _).
    destruct (processFiles getPublicUrl s resp 0 files (w, 0, 0)) as [[w1 sc] fc].
    cbn [fst snd] in *.
    destruct (showResults_spec sc fc w1) as (_ & _ & toasts & Hev' & Htoasts & _).
    rewrite Hloop, Hev', Hev, !attempted_files_app, Hat, Htoasts, app_nil_r in Hsame.
    apply (f_equal (@length _)) in Hsame. rewrite length_app in Hsame.
    destruct files; [by destruct Hne|simpl in Hsame; lia].
Qed.

End UploadBatches.

Lemma non_image_batch_rejected_witness :
  let pdf := mkFile "sheet.pdf" "application/pdf" in
  let files := [Sample.shot; pdf] in
  In pdf files
  /\ Js.startsWith (file_type pdf) "image/" = false
  /\ exists msg,
       PlayerDashboard.handleFileUpload Sample.url (Sample.player 3) files
         Sample.all_fine Sample.empty_world
       = emit (toast_error msg) Sample.empty_world.
Proof.
  intros pdf files.
  assert (Hin : In pdf files) by (right; left; reflexivity).
  assert (Hty : Js.startsWith (file_type pdf) "image/" = false) by reflexivity.
  split; [exact Hin|]. split; [exact Hty|].
  exact (non_image_batch_rejected Sample.url (Sample.player 3) files Sample.all_fine
           Sample.empty_world pdf Hin Hty).
Defined.

Lemma accepted_batch_report_witness :
  let s := Sample.player 3 in
  let files := [Sample.shot; Sample.shot] in
  let w' := PlayerDashboard.handleFileUpload Sample.url s files Sample.no_placement
              Sample.empty_world in
  files <> []
  /\ Js.str_falsy (PlayerDashboard.selectedTeamId s) = false
  /\ Js.or0 (PlayerDashboard.teamUploadCounts s !! PlayerDashboard.selectedTeamId s) < 12
  /\ Js.or0 (PlayerDashboard.teamUploadCounts s !! PlayerDashboard.selectedTeamId s)
     + Z.of_nat (length files) <= 12
  /\ Z.of_nat (length files) <= 4
  /\ Forall (fun file => Js.startsWith (file_type file) "image/" = true) files
  /\ exists calls new,
       match_screenshots w' = new
       /\ attempted_files calls = files
       /\ toasts_of calls = []
       /\ 0 <= Z.of_nat (length files) - Z.of_nat (length new).
Proof.
  intros s files w'.
  assert (H1 : files <> []) by discriminate.
  assert (H2 : Js.str_falsy (PlayerDashboard.selectedTeamId s) = false) by reflexivity.
  assert (H3 : Js.or0 (PlayerDashboard.teamUploadCounts s !! PlayerDashboard.selectedTeamId s) < 12)
    by (vm_compute; reflexivity).
  assert (H4 : Js.or0 (PlayerDashboard.teamUploadCounts s !! PlayerDashboard.selectedTeamId s)
               + Z.of_nat (length files) <= 12) by (vm_compute; discriminate).
  assert (H5 : Z.of_nat (length files) <= 4) by (vm_compute; discriminate).
  assert (H6 : Forall (fun file => Js.startsWith (file_type file) "image/" = true) files)
    by (repeat constructor).
  repeat (split; [assumption|]).
  destruct (accepted_batch_report Sample.url s files Sample.no_placement
              Sample.empty_world H1 H2 H3 H4 H5 H6)
    as (calls & new & Htbl & Hfailed & Hat & Hto & _).
  exists calls, new. repeat split; assumption.
Defined.


Lemma failed_count_query_disables_cap_witness :
  let data := [mkTeamRow "teamA" "Alpha"] in
  let w := mkWorld ∅ (replicate 12 Sample.row_A) [] in
  let s := PlayerDashboard.fetchTeams_state data None Sample.player_unfetched in
  let files := [Sample.shot] in
  let w' := PlayerDashboard.handleFileUpload Sample.url s files Sample.all_fine w in
  In (PlayerDashboard.selectedTeamId s) (map tr_id data)
  /\ Js.str_falsy (PlayerDashboard.selectedTeamId s) = false
  /\ files <> []
  /\ (length files <= 4)%nat
  /\ Forall (fun file => Js.startsWith (file_type file) "image/" = true) files
  /\ attempted_files (events w') = files.
Proof.
  intros data w s files w'.
  assert (H1 : In (PlayerDashboard.selectedTeamId s) (map tr_id data)) by (left; reflexivity).
  assert (H2 : Js.str_falsy (PlayerDashboard.selectedTeamId s) = false) by reflexivity.
  assert (H3 : files <> []) by discriminate.
  assert (H4 : (length files <= 4)%nat) by (simpl; lia).
  assert (H5 : Forall (fun file => Js.startsWith (file_type file) "image/" = true) files)
    by (repeat constructor).
  repeat (split; [assumption|]).
  exact (proj2 (failed_count_query_disables_cap Sample.url Sample.player_unfetched data
                  files Sample.all_fine w H1 H2 H3 H4 H5)).
Defined.

(** ** Standings: the two dashboards, the order of the rows, uploaded rows *)
Section StandingsEntries.

(** The entry AdminDashboard builds for a team is the entry PlayerDashboard
    builds. *)
Lemma teamStats_agree (matchData : option (list MatchScreenshot)) (team : TeamRow) :
  AdminDashboard.teamStats matchData team = PlayerDashboard.teamStats matchData team.
Proof.
  unfold AdminDashboard.teamStats, PlayerDashboard.teamStats.
  change (AdminDashboard.teamMatches matchData (tr_id team))
    with (PlayerDashboard.teamMatches matchData (tr_id team)).
  generalize (PlayerDashboard.teamMatches matchData (tr_id team)). intros l.
  rewrite accumulate_fold, !reduce_sum.
  cbn [PlayerDashboard.acc_totalPoints PlayerDashboard.acc_totalKills
       PlayerDashboard.acc_placementPoints].
  assert (Hpp : map (fun m => AdminDashboard.placementPointsOf (placement m)) l
                = map (fun m => PlayerDashboard.fetchTeams_placementPoints (placement m)) l).
  { apply map_ext. intros m.
    by destruct (aggregation_lookup (placement m)) as [-> ->]. }
  rewrite Hpp. reflexivity.
Qed.

(** X6. The admin and the player see the same standings: on the same fetched
    teams and rows (or failed row query) the two dashboards compute the same
    list of entries, field by field. *)
Theorem dashboards_agree (teamsData : list TeamRow)
    (matchData : option (list MatchScreenshot)) :
  AdminDashboard.teamsWithStats teamsData matchData
  = (PlayerDashboard.fetchTeams teamsData matchData).2.
Proof.
  unfold AdminDashboard.teamsWithStats, PlayerDashboard.fetchTeams. cbn [snd].
  apply map_ext. intros team. apply teamStats_agree.
Qed.

(** A sum over a list does not depend on the order of the list. *)
Lemma sum_Permutation {A} (f : A -> Z) (l l' : list A) :
  l ≡ₚ l' -> foldr Z.add 0 (map f l) = foldr Z.add 0 (map f l').
Proof.
  induction 1 as [|x l l' _ IH|x y l|l l' l'' _ IH1 _ IH2]; simpl; lia.
Qed.

(** X7. The standings do not depend on the order in which the query returns
    the rows: for two row lists that are permutations of each other, every
    team gets the same entry. *)
Theorem standings_order_independent (rows rows' : list MatchScreenshot) (team : TeamRow) :
  rows ≡ₚ rows' ->
  AdminDashboard.teamStats (Some rows) team = AdminDashboard.teamStats (Some rows') team
  /\ PlayerDashboard.teamStats (Some rows) team = PlayerDashboard.teamStats (Some rows') team.
Proof.
  intros Hperm.
  assert (Hadmin : AdminDashboard.teamStats (Some rows) team
                   = AdminDashboard.teamStats (Some rows') team).
  { unfold AdminDashboard.teamStats, AdminDashboard.teamMatches.
    rewrite !team_filter.
    assert (Hmine : filter (fun m => team_id m = tr_id team) rows
                    ≡ₚ filter (fun m => team_id m = tr_id team) rows')
      by (by apply filter_Permutation).
    revert Hmine.
    generalize (filter (fun m => team_id m = tr_id team) rows).
    generalize (filter (fun m => team_id m = tr_id team) rows').
    intros l' l Hmine.
    rewrite !reduce_sum.
    rewrite !(first_place_filter AdminDashboard.is_first_place) by reflexivity.
    rewrite (sum_Permutation _ l l' Hmine).
    rewrite (sum_Permutation (fun m => Js.or0 (kills m)) l l' Hmine).
    rewrite (sum_Permutation (fun m => AdminDashboard.placementPointsOf (placement m)) l l' Hmine).
    rewrite (Permutation_length Hmine).
    assert (Hwins : filter (fun m => placement m = Some 1) l
                    ≡ₚ filter (fun m => placement m = Some 1) l')
      by (by apply filter_Permutation).
    rewrite (Permutation_length Hwins). reflexivity. }
  split; [exact Hadmin|].
  rewrite <- !teamStats_agree. exact Hadmin.
Qed.

(** Two sums whose summands add up pointwise. *)
Lemma sum_split {A} (f g h : A -> Z) (l : list A) :
  (forall m, In m l -> f m = g m + h m) ->
  foldr Z.add 0 (map f l) = foldr Z.add 0 (map g l) + foldr Z.add 0 (map h l).
Proof.
  induction l as [|m l IH]; intros Hsplit; simpl; [lia|].
  rewrite (Hsplit m) by (by left).
  rewrite IH by (intros m' Hm'; apply Hsplit; by right). lia.
Qed.

(** X8. For a team all of whose rows are as the upload writes them (a
    placement, a kill count, points scored from the two), the standings entry
    adds up: totalPoints = placementPoints + killPoints. *)
Theorem uploaded_rows_add_up (rows : list MatchScreenshot) (team : TeamRow) :
  (forall m, In m rows -> team_id m = tr_id team ->
     exists p k, placement m = Some p /\ kills m = Some k
                 /\ points m = Some (PlayerDashboard.upload_points (Some p) k)) ->
  let t := AdminDashboard.teamStats (Some rows) team in
  totalPoints t = placementPoints t + killPoints t.
Proof.
  intros Hrows t. subst t.
  unfold AdminDashboard.teamStats, AdminDashboard.teamMatches.
  cbn [totalPoints placementPoints killPoints].
  rewrite !reduce_sum, !Z.add_0_l.
  apply sum_split. intros m Hm.
  apply filter_In in Hm as [Hin Hteam].
  apply String.eqb_eq in Hteam.
  destruct (Hrows m Hin Hteam) as (p & k & -> & -> & ->).
  rewrite !or0_Some.
  destruct (aggregation_lookup (Some p)) as [-> _].
  reflexivity.
Qed.

End StandingsEntries.

Lemma standings_order_independent_witness :
  let r1 := Sample.row_A in
  let r2 := mkMatchScreenshot "teamA" "u1" 2 "b.png" (Some 1) (Some 5) (Some 15) "" in
  [r1; r2] ≡ₚ [r2; r1]
  /\ AdminDashboard.teamStats (Some [r1; r2]) (mkTeamRow "teamA" "Alpha")
     = AdminDashboard.teamStats (Some [r2; r1]) (mkTeamRow "teamA" "Alpha").
Proof.
  intros r1 r2.
  assert (Hperm : [r1; r2] ≡ₚ [r2; r1]) by apply perm_swap.
  split; [exact Hperm|].
  exact (proj1 (standings_order_independent [r1; r2] [r2; r1]
                  (mkTeamRow "teamA" "Alpha") Hperm)).
Defined.

Lemma uploaded_rows_add_up_witness :
  let rows :=
    [mkMatchScreenshot "teamA" "u1" 1 "a.png" (Some 2) (Some 4) (Some 10) "";
     mkMatchScreenshot "teamB" "u2" 1 "b.png" None None None "";
     mkMatchScreenshot "teamA" "u1" 2 "c.png" (Some 12) (Some 1) (Some 1) ""] in
  let team := mkTeamRow "teamA" "Alpha" in
  (forall m, In m rows -> team_id m = tr_id team ->
     exists p k, placement m = Some p /\ kills m = Some k
                 /\ points m = Some (PlayerDashboard.upload_points (Some p) k))
  /\ totalPoints (AdminDashboard.teamStats (Some rows) team)
     = placementPoints (AdminDashboard.teamStats (Some rows) team)
       + killPoints (AdminDashboard.teamStats (Some rows) team).
Proof.
  intros rows team.
  assert (Hrows : forall m, In m rows -> team_id m = tr_id team ->
            exists p k, placement m = Some p /\ kills m = Some k
                        /\ points m = Some (PlayerDashboard.upload_points (Some p) k)).
  { intros m [<-|[<-|[<-|[]]]] Hteam.
    - exists 2, 4. repeat split; vm_compute; reflexivity.
    - discriminate Hteam.
    - exists 12, 1. repeat split; vm_compute; reflexivity. }
  split; [exact Hrows|].
  exact (uploaded_rows_add_up rows team Hrows).
Defined.

(** ** Numbers as text: select values and storage names *)
Section NumbersAsText.

Import PlayerDashboard.

Lemma every_char_app (p : Ascii.ascii -> bool) (a b : string) :
  Text.every_char p (a +:+ b) = Text.every_char p a && Text.every_char p b.
Proof.
  induction a as [|c a IH]; [reflexivity|].
  simpl. rewrite IH. by rewrite andb_assoc.
Qed.

Lemma every_char_impl (p q : Ascii.ascii -> bool) (s : string) :
  (forall c, p c = true -> q c = true) ->
  Text.every_char p s = true -> Text.every_char q s = true.
Proof.
  intros Hpq. induction s as [|c s IH]; [reflexivity|].
  simpl. rewrite !andb_true_iff. intros [Hc Hs]. auto.
Qed.

Lemma append_cons (c : Ascii.ascii) (a b : string) :
  String c a +:+ b = String c (a +:+ b).
Proof. reflexivity. Qed.

Lemma append_snoc (a : string) (c : Ascii.ascii) (s : string) :
  a +:+ String c s = (a +:+ String c EmptyString) +:+ s.
Proof. induction a as [|c' a IH]; [reflexivity|]. rewrite !append_cons; simpl. f_equal. exact IH. Qed.

Lemma append_empty (a : string) : a +:+ EmptyString = a.
Proof. induction a as [|c a IH]; [reflexivity|]. rewrite append_cons. f_equal. exact IH. Qed.

Lemma length_snoc (a : string) (c : Ascii.ascii) :
  String.length (a +:+ String c EmptyString) = S (String.length a).
Proof. induction a as [|c' a IH]; [reflexivity|]. rewrite !append_cons; simpl. f_equal. exact IH. Qed.

(** The character printed for a digit is read back as that digit. *)
Lemma digit_of_pretty_N_char (d : N) :
  (d < 10)%N -> Js.digit_of (pretty_N_char d) = Some (Z.of_N d).
Proof.
  intros Hd.
  assert (Hcases : (d = 0 \/ d = 1 \/ d = 2 \/ d = 3 \/ d = 4 \/ d = 5 \/ d = 6
                    \/ d = 7 \/ d = 8 \/ d = 9)%N) by lia.
  repeat (destruct Hcases as [->|Hcases]; [vm_compute; reflexivity|]).
  subst d. vm_compute; reflexivity.
Qed.

(** Reading a digit string that is followed by one more digit. *)
Lemma parse_digits_snoc (d : string) (c : Ascii.ascii) (v acc : Z) :
  Text.every_char Text.is_digit d = true ->
  Js.digit_of c = Some v ->
  Js.parse_digits acc (d +:+ String c EmptyString) = 10 * Js.parse_digits acc d + v.
Proof.
  revert acc. induction d as [|c' d IH]; intros acc Hd Hc; simpl.
  - by rewrite Hc.
  - simpl in Hd. apply andb_true_iff in Hd as [Hc' Hd].
    unfold Text.is_digit in Hc'. destruct (Js.digit_of c') as [v'|]; [|discriminate].
    by apply IH.
Qed.

(** The digits [pretty_N_go] puts in front of [s]: a digit string, not empty
    for a positive number, whose value read after [acc] is [acc] shifted by
    its length plus the number. *)
Lemma pretty_N_go_digits (x : N) :
  forall s, exists d,
    pretty_N_go x s = d +:+ s
    /\ Text.every_char Text.is_digit d = true
    /\ ((0 < x)%N -> d <> EmptyString)
    /\ forall acc, Js.parse_digits acc d
                   = acc * 10 ^ Z.of_nat (String.length d) + Z.of_N x.
Proof.
  induction (N.lt_wf_0 x) as [x _ IH]; intros s.
  destruct (decide (x = 0%N)) as [->|Hx].
  - exists EmptyString. rewrite pretty_N_go_0. repeat split; try done; try lia.
    intros acc. simpl. lia.
  - rewrite pretty_N_go_step by lia.
    destruct (IH (x `div` 10)%N (N.div_lt x 10 ltac:(lia) ltac:(lia))
                (String (pretty_N_char (x `mod` 10)) s))
      as (d & Hgo & Hdigits & _ & Hval).
    pose proof (digit_of_pretty_N_char (x `mod` 10)%N (N.mod_lt x 10 ltac:(lia))) as Hc.
    exists (d +:+ String (pretty_N_char (x `mod` 10)) EmptyString).
    split; [|split; [|split]].
    + rewrite Hgo. apply append_snoc.
    + rewrite every_char_app, Hdigits. simpl. unfold Text.is_digit. by rewrite Hc.
    + intros _. by destruct d.
    + intros acc. rewrite (parse_digits_snoc d _ _ acc Hdigits Hc), Hval.
      rewrite length_snoc, Nat2Z.inj_succ, Z.pow_succ_r by lia.
      pose proof (N.div_mod x 10 ltac:(lia)) as Hdm.
      apply (f_equal Z.of_N) in Hdm. rewrite N2Z.inj_add, N2Z.inj_mul in Hdm.
      change (Z.of_N 10) with 10 in Hdm. lia.
Qed.

(** The text of a natural number: digits only, not empty, read back as the
    number. *)
Lemma pretty_N_digits (x : N) :
  Text.every_char Text.is_digit (pretty x) = true
  /\ Js.parseInt (pretty x) = Some (Z.of_N x).
Proof.
  unfold pretty, pretty_N. case_decide as Hx; [subst; split; reflexivity|].
  destruct (pretty_N_go_digits x EmptyString) as (d & Hgo & Hdigits & Hne & Hval).
  assert (Hd : pretty_N_go x EmptyString = d) by (by rewrite Hgo, append_empty).
  rewrite Hd. split; [exact Hdigits|].
  destruct d as [|c d]; [destruct Hne; [lia|reflexivity]|].
  unfold Js.parseInt. simpl in Hdigits. apply andb_true_iff in Hdigits as [Hc _].
  unfold Text.is_digit in Hc. destruct (Js.digit_of c) as [v|] eqn:Hv; [|discriminate].
  rewrite Hval. f_equal; lia.
Qed.

(** X9. The value a number select shows for its state ([n.toString()]) is
    read back by its change handler ([parseInt]) as the same number, for
    every non-negative safe integer [n] (up to [2^53 - 1]): choosing the
    item that is shown never changes the state.  (For a negative number the
    text starts with the minus sign; from [10^21] on the text is in exponent
    notation and [parseInt] reads its first digit only.) *)
Theorem select_value_round_trip (n : Z) :
  0 <= n <= 2 ^ 53 - 1 -> Js.parseInt (Js.toString n) = Some n.
Proof.
  intros [Hn _]. unfold Js.toString, pretty, pretty_Z.
  destruct n as [|p|p]; [reflexivity| |lia].
  destruct (pretty_N_digits (N.pos p)) as [_ Hparse]. exact Hparse.
Qed.

End NumbersAsText.

Lemma select_value_round_trip_witness :
  0 <= 18 <= 2 ^ 53 - 1 /\ Js.parseInt (Js.toString 18) = Some 18.
Proof.
  split; [lia|]. apply (select_value_round_trip 18). lia.
Defined.

(** ** Storage names and the batch where nothing fails *)
Section StorageNames.

Import PlayerDashboard.

Variable getPublicUrl : string -> string.

(** A digit or a minus sign is neither an underscore nor a dot. *)
Lemma number_char_is_not_sep (c : Ascii.ascii) :
  Text.is_number_char c = true ->
  Text.is_not "_" c = true /\ Text.is_not "." c = true.
Proof.
  destruct c as [[] [] [] [] [] [] [] []]; vm_compute; intros H;
    first [discriminate H | split; reflexivity].
Qed.

(** The text of an integer consists of digits and, at most, a minus sign. *)
Lemma toString_chars (z : Z) :
  Text.every_char Text.is_number_char (Js.toString z) = true.
Proof.
  assert (Hpos : forall p : positive,
             Text.every_char Text.is_number_char (pretty (N.pos p)) = true).
  { intros p. destruct (pretty_N_digits (N.pos p)) as [Hd _].
    revert Hd. apply every_char_impl. intros c Hc.
    unfold Text.is_number_char. by rewrite Hc. }
  unfold Js.toString, pretty, pretty_Z. destruct z as [|p|p].
  - reflexivity.
  - apply Hpos.
  - rewrite every_char_app. apply andb_true_iff. split; [reflexivity|apply Hpos].
Qed.

(** Two texts cut at the first separator: equal wholes have equal parts. *)
Lemma split_at_separator (k : Ascii.ascii) (a a' x x' : string) :
  Text.every_char (Text.is_not (String k EmptyString)) a = true ->
  Text.every_char (Text.is_not (String k EmptyString)) a' = true ->
  a +:+ String k x = a' +:+ String k x' ->
  a = a' /\ x = x'.
Proof.
  assert (Hk : forall c, Text.is_not (String k EmptyString) c = true -> c <> k).
  { intros c Hc ->. unfold Text.is_not in Hc. by rewrite String.eqb_refl in Hc. }
  revert a'. induction a as [|c a IH]; intros [|c' a'] Ha Ha' Heq.
  - injection Heq as ->. auto.
  - rewrite append_cons in Heq. injection Heq as <- _.
    simpl in Ha'. apply andb_true_iff in Ha' as [Hc _]. by destruct (Hk k Hc).
  - rewrite append_cons in Heq. injection Heq as -> _.
    simpl in Ha. apply andb_true_iff in Ha as [Hc _]. by destruct (Hk k Hc).
  - rewrite !append_cons in Heq. injection Heq as -> Heq.
    simpl in Ha, Ha'. apply andb_true_iff in Ha as [_ Ha].
    apply andb_true_iff in Ha' as [_ Ha'].
    destruct (IH a' Ha Ha' Heq) as [-> ->]. auto.
Qed.

(** Equal names have equal parts. *)
Lemma fileNameOf_parts (s : State) (i j : Z) (file file' : File) (r r' : Responses) :
  fileNameOf s i file r = fileNameOf s j file' r' ->
  date_now r = date_now r'
  /\ i = j
  /\ Js.split_dot_pop (file_name file) = Js.split_dot_pop (file_name file').
Proof.
  unfold fileNameOf. cbn zeta. intros Heq.
  apply (inj (String.append (userId s))) in Heq.
  rewrite !append_cons in Heq. injection Heq as Heq.
  change (String.append EmptyString ?x) with x in Heq.
  change ("_" +:+ ?x) with (String "_" x) in Heq.
  pose proof (toString_chars (date_now r)) as Hnow.
  pose proof (toString_chars (date_now r')) as Hnow'.
  apply (every_char_impl _ (Text.is_not "_")) in Hnow, Hnow';
    try (intros c Hc; by apply number_char_is_not_sep).
  destruct (split_at_separator _ _ _ _ _ Hnow Hnow' Heq) as [Hdate Hrest].
  apply (inj pretty) in Hdate.
  change ("." +:+ ?x) with (String "." x) in Hrest.
  pose proof (toString_chars i) as Hi.
  pose proof (toString_chars j) as Hj.
  apply (every_char_impl _ (Text.is_not ".")) in Hi, Hj;
    try (intros c Hc; by apply number_char_is_not_sep).
  destruct (split_at_separator _ _ _ _ _ Hi Hj Hrest) as [Hidx Hext].
  apply (inj pretty) in Hidx. auto.
Qed.

(** X10. The storage names of one player are unambiguous: two names are equal
    exactly when the clock reading, the index in the batch and the file
    extension (the text after the last dot of the file name) are all equal.
    In particular two files of one batch never get the same name, whatever
    the clock says, and two files that differ only before their extension
    do get the same name at the same index and time. *)
Theorem fileNameOf_inj (s : State) (i j : Z) (file file' : File) (r r' : Responses) :
  fileNameOf s i file r = fileNameOf s j file' r'
  <-> date_now r = date_now r'
      /\ i = j
      /\ Js.split_dot_pop (file_name file) = Js.split_dot_pop (file_name file').
Proof.
  split; [apply fileNameOf_parts|].
  intros (Hdate & -> & Hext). unfold fileNameOf. cbn zeta. by rewrite Hdate, Hext.
Qed.

(** One turn of the loop when nothing fails: the file is stored under its
    name, one row is added, and the file counts as a success. *)
Lemma processFile_fine (s : State) (i : Z) (file : File) (r : Responses) (w : World) :
  Migration.day_check (selectedDay s) = true ->
  upload_ok r = true ->
  insert_ok r = true ->
  (exists p k, analysis r
               = analysisData (Some (mkAnalysisData (field_number p) (field_number k)))) ->
  storage w !! fileNameOf s i file r = None ->
  let res := processFile getPublicUrl s i file r w in
  res.2 = true
  /\ storage res.1 = <[fileNameOf s i file r := file]> (storage w)
  /\ length (match_screenshots res.1) = S (length (match_screenshots w)).
Proof.
  intros Hday Hup Hins (p & k & Han) Hfree. unfold processFile.
  unfold storage_put. cbn [emit storage]. rewrite Hup, Han.
  rewrite bool_decide_eq_true_2 by exact Hfree.
  cbn [andb orb a_placement a_kills is_null].
  unfold Migration.insert. cbn [day]. rewrite Hins, Hday. cbn.
  rewrite length_app. cbn. repeat split; auto; lia.
Qed.

(** The loop when nothing fails and the names it will use are free: every
    file is stored under its name and adds one row, and only [successCount]
    moves. *)
Lemma processFiles_fine (s : State) (resp : Z -> Responses) (files : list File) :
  Migration.day_check (selectedDay s) = true ->
  forall (i : Z) (w : World) (successCount failCount : Z),
  (forall j, i <= j < i + Z.of_nat (length files) ->
     upload_ok (resp j) = true /\ insert_ok (resp j) = true
     /\ exists p k, analysis (resp j)
                    = analysisData (Some (mkAnalysisData (field_number p) (field_number k)))) ->
  (forall j file, i <= j < i + Z.of_nat (length files) ->
     storage w !! fileNameOf s j file (resp j) = None) ->
  let res := processFiles getPublicUrl s resp i files (w, successCount, failCount) in
  res.1.2 = successCount + Z.of_nat (length files)
  /\ res.2 = failCount
  /\ length (match_screenshots res.1.1)
     = (length (match_screenshots w) + length files)%nat
  /\ forall (k : nat) file, files !! k = Some file ->
       storage res.1.1 !! fileNameOf s (i + Z.of_nat k) file (resp (i + Z.of_nat k))
       = Some file.
Proof.
  intros Hday. induction files as [|file rest IH];
    intros i w successCount failCount Hresp Hfree.
  - simpl. repeat split; auto; try lia. intros k file Hk. discriminate.
  - cbn [processFiles]. cbn [length] in Hresp, Hfree.
    destruct (Hresp i ltac:(lia)) as (Hup & Hins & Han).
    destruct (processFile_fine s i file (resp i) w Hday Hup Hins Han
                (Hfree i file ltac:(lia))) as (Hok & Hst & Hlen).
    destruct (processFile getPublicUrl s i file (resp i) w) as [w1 ok].
    cbn [fst snd] in *. subst ok.
    destruct (IH (i + 1) w1 (successCount + 1) failCount) as (Hsc & Hfc & Hrows & Hstored).
    { intros j Hj. apply Hresp. lia. }
    { intros j file' Hj. rewrite Hst, lookup_insert_ne; [apply Hfree; lia|].
      intros Heq. apply fileNameOf_parts in Heq. lia. }
    pose proof (processFiles_spec getPublicUrl s resp rest (i + 1) w1
                  (successCount + 1) failCount) as (_ & _ & _ & _ & _ & _ & _ & Hgrow & _).
    destruct (processFiles getPublicUrl s resp (i + 1) rest
                (w1, successCount + 1, failCount)) as [[w2 sc] fc].
    cbn [fst snd length] in *.
    split; [lia|]. split; [exact Hfc|]. split; [lia|].
    intros [|k] file' Hk.
    + injection Hk as <-. rewrite Z.add_0_r.
      eapply lookup_weaken; [|exact Hgrow]. rewrite Hst. apply lookup_insert_eq.
    + replace (i + Z.of_nat (S k)) with (i + 1 + Z.of_nat k) by lia.
      by apply Hstored.
Qed.

(** X11. The batch where nothing fails: when a selection passes every guard,
    the selected day is valid, the outside answers every call without error
    and with a placement and a kill count, and the names the batch will use
    are free in the bucket, then every file is stored under its name, the
    table grows by exactly one row per file, each file is uploaded, analysed
    and inserted once, and the only toast is the success toast with the
    number of files. *)
Theorem all_fine_batch (s : State) (files : list File)
    (resp : Z -> Responses) (w : World) :
  let currentUploads := Js.or0 (teamUploadCounts s !! selectedTeamId s) in
  let n := Z.of_nat (length files) in
  let w' := handleFileUpload getPublicUrl s files resp w in
  files <> [] ->
  Js.str_falsy (selectedTeamId s) = false ->
  currentUploads + n <= 12 ->
  n <= 4 ->
  Forall (fun file => Js.startsWith (file_type file) "image/" = true) files ->
  Migration.day_check (selectedDay s) = true ->
  (forall j, 0 <= j < n ->
     upload_ok (resp j) = true /\ insert_ok (resp j) = true
     /\ exists p k, analysis (resp j)
                    = analysisData (Some (mkAnalysisData (field_number p) (field_number k)))) ->
  (forall j file, 0 <= j < n -> storage w !! fileNameOf s j file (resp j) = None) ->
  length (match_screenshots w') = (length (match_screenshots w) + length files)%nat
  /\ (forall (k : nat) file, files !! k = Some file ->
        storage w' !! fileNameOf s (Z.of_nat k) file (resp (Z.of_nat k)) = Some file)
  /\ exists calls,
       attempted_files calls = files
       /\ length (invoked_urls calls) = length files
       /\ length (attempted_rows calls) = length files
       /\ toasts_of calls = []
       /\ events w'
          = events w ++ calls
            ++ [toast_success ("Successfully uploaded " +:+ Js.toString n
                                 +:+ " screenshot" +:+ plural n +:+ "!")].
Proof.
  intros currentUploads n w' Hne Hteam Hsum Hfour Himg Hday Hresp Hfree.
  assert (Hpos : 0 < n) by (subst n; destruct files; [by destruct Hne|simpl; lia]).
  destruct (handleFileUpload_cases getPublicUrl s files resp w)
    as [[-> _]|[(_ & Hwhy & _)|(_ & _ & _ & _ & _ & _ & Hloop)]].
  - by destruct Hne.
  - exfalso. fold currentUploads n in Hwhy.
    destruct Hwhy as [Hf|[Hf|[Hf|[Hf|(bad & Hin & Hbad)]]]]; try congruence; try lia.
    rewrite Forall_forall in Himg.
    rewrite (Himg bad) in Hbad by (by apply list_elem_of_In). discriminate.
  - fold w' in Hloop.
    destruct (processFiles_fine s resp files Hday 0 w 0 0) as (Hsc & Hfc & Hrows & Hstored).
    { intros j Hj. apply Hresp. subst n. lia. }
    { intros j file Hj. apply Hfree. subst n. lia. }
    destruct (processFiles_spec getPublicUrl s resp files 0 w 0 0)
      as (evs & new & Hev & Hat & _ & Htbl & _ & _ & _ & _ & Hto & Hinv & Hins
          & _ & Hle & _).
    destruct (processFiles getPublicUrl s resp 0 files (w, 0, 0)) as [[w1 sc] fc].
    cbn [fst snd] in *.
    assert (Hnew : length new = length files).
    { rewrite Htbl, length_app in Hrows. lia. }
    destruct (showResults_spec sc fc w1) as (Hst' & Htbl' & _).
    rewrite Hloop, Htbl', Hst', showResults_events, Hev.
    split; [exact Hrows|]. split; [exact Hstored|].
    exists evs. split; [exact Hat|].
    split; [lia|]. split; [lia|]. split; [exact Hto|].
    subst fc sc. fold n. rewrite Z.add_0_l.
    destruct (Z.ltb_spec 0 n); [|lia].
    change (0 <? 0) with false. cbv iota. by rewrite app_nil_r, <- app_assoc.
Qed.

End StorageNames.

(** ** From the login to the dashboard *)
Section LoginRouting.

Import Auth.

Variable trim : string -> string.
Variable toUpperCase : string -> string.

(** The role query finds the one row of a user who had none before. *)
Lemma role_of_new_row (tbl : list SessionRow) (row : SessionRow) :
  (forall old, In old tbl -> user_id old <> user_id row) ->
  Index.role_of true (user_id row) (tbl ++ [row]) = Some (Some (role row)).
Proof.
  intros Hfresh. unfold Index.role_of. rewrite List.filter_app.
  assert (Hnone : List.filter (fun r => String.eqb (user_id r) (user_id row)) tbl = []).
  { induction tbl as [|old tbl IH]; [reflexivity|]. simpl.
    destruct (String.eqb_spec (user_id old) (user_id row)) as [Heq|_].
    - destruct (Hfresh old (or_introl eq_refl) Heq).
    - apply IH. intros old' Hold'. apply Hfresh. by right. }
  rewrite Hnone. simpl. by rewrite String.eqb_refl.
Qed.

(** Starting signed out, the access-code login ends signed out with
    [sessions] as it was, or signed in as the new user with the row of the
    validated code added. *)
Lemma handleAccessCode_outcome (accessCode : string) (r : Auth.Responses) (b : Backend) :
  auth_user b = None ->
  let code := toUpperCase (trim accessCode) in
  let b' := handleAccessCode trim toUpperCase accessCode r b in
  (auth_user b' = None /\ sessions b' = sessions b)
  \/ exists user data,
       signIn r = authData (Some user)
       /\ validate_access_code r code = codeData (Some data)
       /\ auth_user b' = Some user
       /\ sessions b'
          = sessions b ++ [mkSessionRow user code (code_role data) (code_team_id data)].
Proof.
  intros Hout. unfold handleAccessCode.
  destruct (Js.str_falsy (trim accessCode)); [by left|].
  destruct (signIn r) as [|[user|]]; [by left| |by left].
  destruct (validate_access_code r _) as [|[data|]] eqn:Hcode; [by left| |by left].
  unfold insert_session. destruct (session_ok r); [|by left].
  right. by exists user, data.
Qed.

(** X12. After an access-code login that started signed out, with a new
    user who has no [sessions] row yet, the page shows the admin dashboard
    only if the entered code was validated with the role "admin"; and when a
    code is validated and its session row inserted, the page shows the
    dashboard of the code's role: the admin dashboard for "admin", the player
    dashboard for any other role. *)
Theorem access_code_routing (accessCode : string) (r : Auth.Responses)
    (b : Backend) (ok : bool) :
  let code := toUpperCase (trim accessCode) in
  let b' := handleAccessCode trim toUpperCase accessCode r b in
  let view := Index.render (Index.checkAuth ok b' Index.initial).1 in
  auth_user b = None ->
  (forall user old, signIn r = authData (Some user) -> In old (sessions b) ->
     user_id old <> user) ->
  (forall user, view = Index.ShowAdminDashboard user ->
     exists data, signIn r = authData (Some user)
                  /\ validate_access_code r code = codeData (Some data)
                  /\ code_role data = "admin"%string)
  /\ (forall user data,
        Js.str_falsy (trim accessCode) = false ->
        signIn r = authData (Some user) ->
        validate_access_code r code = codeData (Some data) ->
        session_ok r = true ->
        ok = true ->
        Js.str_falsy user = false ->
        Js.str_falsy (code_role data) = false ->
        view = if String.eqb (code_role data) "admin"
               then Index.ShowAdminDashboard user
               else Index.ShowPlayerDashboard user).
Proof.
  intros code b' view Hout Hfresh.
  assert (Hrole : forall user data,
             signIn r = authData (Some user) ->
             auth_user b' = Some user ->
             sessions b' = sessions b
                           ++ [mkSessionRow user code (code_role data) (code_team_id data)] ->
             Index.role_of true user (sessions b') = Some (Some (code_role data))).
  { intros user data Hsign _ ->.
    apply (role_of_new_row (sessions b)
             (mkSessionRow user code (code_role data) (code_team_id data))).
    intros old Hold. by apply (Hfresh user old Hsign). }
  split.
  - intros user Hview. subst view. unfold Index.checkAuth in Hview.
    destruct (handleAccessCode_outcome accessCode r b Hout)
      as [[Hnone _]|(user' & data & Hsign & Hcode & Huser & Hrows)];
      fold b' in Hnone || fold b' in Huser, Hrows.
    + rewrite Hnone in Hview. discriminate.
    + rewrite Huser in Hview. destruct ok.
      * rewrite (Hrole user' data Hsign Huser Hrows) in Hview.
        unfold Index.render in Hview. cbn in Hview.
        destruct (Js.str_falsy user' || Js.str_falsy (code_role data)); [discriminate|].
        destruct (String.eqb_spec (code_role data) "admin") as [Hadmin|_]; [|discriminate].
        injection Hview as <-. by exists data.
      * cbn in Hview. discriminate.
  - intros user data Hcode Hsign Hvalid Hins -> Huser Hrolename.
    assert (Hb' : auth_user b' = Some user
                  /\ sessions b' = sessions b
                     ++ [mkSessionRow user code (code_role data) (code_team_id data)]).
    { subst b'. unfold handleAccessCode. rewrite Hcode, Hsign. fold code.
      rewrite Hvalid. unfold insert_session. rewrite Hins. by split. }
    destruct Hb' as [Hu Hrows].
    subst view. unfold Index.checkAuth. rewrite Hu.
    rewrite (Hrole user data Hsign Hu Hrows).
    unfold Index.render. cbn. by rewrite Huser, Hrolename.
Qed.

(** Starting signed out, the player login ends signed out with [sessions] as
    it was, or signed in with one player row added. *)
Lemma handlePlayerAccess_outcome (r : PlayerResponses) (b : Backend) :
  auth_user b = None ->
  let b' := handlePlayerAccess r b in
  (auth_user b' = None /\ sessions b' = sessions b)
  \/ exists user,
       player_signIn r = authData (Some user)
       /\ sessionError_message r = None
       /\ auth_user b' = Some user
       /\ sessions b' = sessions b ++ [mkSessionRow user "PLAYER_DIRECT" "player" None].
Proof.
  intros Hout. unfold handlePlayerAccess.
  destruct (player_signIn r) as [|[user|]]; [by left| |by left].
  destruct (sessionError_message r) as [message|] eqn:Herr; [by left|].
  right. by exists user.
Qed.

(** X13. The player login never leads to the admin dashboard: started signed
    out with a new user, it adds at most one [sessions] row, with role
    "player" and no team; when the sign-in or the insert fails nobody is
    signed in, [sessions] is as it was and the page sends the visitor back to
    the login; when both succeed the page shows the player dashboard. *)
Theorem player_access_routing (r : PlayerResponses) (b : Backend) (ok : bool) :
  let b' := handlePlayerAccess r b in
  let page := Index.checkAuth ok b' Index.initial in
  auth_user b = None ->
  (forall user old, player_signIn r = authData (Some user) -> In old (sessions b) ->
     user_id old <> user) ->
  (forall user, Index.render page.1 <> Index.ShowAdminDashboard user)
  /\ (player_signIn r = authError
      \/ player_signIn r = authData None
      \/ sessionError_message r <> None ->
      auth_user b' = None /\ sessions b' = sessions b
      /\ page.2 = Some "/auth"%string)
  /\ (forall user,
        player_signIn r = authData (Some user) ->
        sessionError_message r = None ->
        sessions b' = sessions b ++ [mkSessionRow user "PLAYER_DIRECT" "player" None]
        /\ (ok = true -> Js.str_falsy user = false ->
            Index.render page.1 = Index.ShowPlayerDashboard user)).
Proof.
  intros b' page Hout Hfresh.
  assert (Hrole : forall user,
             player_signIn r = authData (Some user) ->
             Index.role_of true user
               (sessions b ++ [mkSessionRow user "PLAYER_DIRECT" "player" None])
             = Some (Some "player"%string)).
  { intros user Hsign.
    apply (role_of_new_row (sessions b)
             (mkSessionRow user "PLAYER_DIRECT" "player" None)).
    intros old Hold. by apply (Hfresh user old Hsign). }
  split; [|split].
  - intros user Hview. subst page. unfold Index.checkAuth in Hview.
    destruct (handlePlayerAccess_outcome r b Hout)
      as [[Hnone _]|(user' & Hsign & _ & Huser & Hrows)];
      fold b' in Hnone || fold b' in Huser, Hrows.
    + rewrite Hnone in Hview. discriminate.
    + rewrite Huser, Hrows in Hview. destruct ok; [|cbn in Hview; discriminate].
      rewrite (Hrole user' Hsign) in Hview.
      unfold Index.render in Hview. cbn in Hview.
      destruct (Js.str_falsy user'); cbn in Hview; discriminate.
  - intros Hfail.
    assert (Hb' : auth_user b' = None /\ sessions b' = sessions b).
    { subst b'. unfold handlePlayerAccess.
      destruct (player_signIn r) as [|[user|]]; [by auto| |by auto].
      destruct (sessionError_message r); [by auto|].
      destruct Hfail as [?|[?|?]]; congruence. }
    destruct Hb' as [Hu Hrows]. repeat split; auto.
    subst page. unfold Index.checkAuth. by rewrite Hu.
  - intros user Hsign Hins.
    assert (Hb' : auth_user b' = Some user
                  /\ sessions b' = sessions b
                     ++ [mkSessionRow user "PLAYER_DIRECT" "player" None]).
    { subst b'. unfold handlePlayerAccess. rewrite Hsign, Hins. by split. }
    destruct Hb' as [Hu Hrows]. split; [exact Hrows|].
    intros -> Huser. subst page. unfold Index.checkAuth. rewrite Hu, Hrows.
    rewrite (Hrole user Hsign).
    unfold Index.render. cbn. by rewrite Huser.
Qed.

End LoginRouting.

Lemma all_fine_batch_witness :
  let s := Sample.player 3 in
  let files := [Sample.shot; Sample.shot] in
  let w' := PlayerDashboard.handleFileUpload Sample.url s files Sample.all_fine
              Sample.empty_world in
  files <> []
  /\ Migration.day_check (PlayerDashboard.selectedDay s) = true
  /\ length (match_screenshots w') = 2%nat
  /\ exists calls,
       attempted_files calls = files
       /\ length (invoked_urls calls) = 2%nat
       /\ length (attempted_rows calls) = 2%nat
       /\ toasts_of calls = []
       /\ events w' = calls ++ [toast_success "Successfully uploaded 2 screenshots!"].
Proof.
  intros s files w'.
  assert (Hne : files <> []) by discriminate.
  assert (Hday : Migration.day_check (PlayerDashboard.selectedDay s) = true) by reflexivity.
  split; [exact Hne|]. split; [exact Hday|].
  destruct (all_fine_batch Sample.url s files Sample.all_fine Sample.empty_world)
    as (Hrows & _ & calls & Hat & Hinv & Hins & Hto & Hev); auto.
  - vm_compute; discriminate.
  - vm_compute; discriminate.
  - repeat constructor.
  - intros j _. repeat split; eauto.
  - split; [exact Hrows|]. exists calls.
    split; [exact Hat|]. split; [exact Hinv|]. split; [exact Hins|].
    split; [exact Hto|exact Hev].
Defined.

Lemma access_code_routing_witness :
  let r := Auth.mkResponses (Auth.authData (Some "anon-1"%string))
             (fun code => if String.eqb code "ADMIN2025"
                          then Auth.codeData (Some (Auth.mkCodeData "admin" None))
                          else Auth.codeError)
             true in
  let b := Auth.mkBackend None [] [] in
  let b' := Auth.handleAccessCode Auth.trim_ascii Auth.toUpperCase_ascii " admin2025 " r b in
  Auth.auth_user b = None
  /\ Index.render (Index.checkAuth true b' Index.initial).1
     = Index.ShowAdminDashboard "anon-1".
Proof.
  intros r b b'.
  assert (Hout : Auth.auth_user b = None) by reflexivity.
  split; [exact Hout|].
  destruct (access_code_routing Auth.trim_ascii Auth.toUpperCase_ascii " admin2025 " r b true
              Hout) as [_ Hshow].
  - intros user old _ [].
  - exact (Hshow "anon-1"%string (Auth.mkCodeData "admin" None)
             eq_refl eq_refl eq_refl eq_refl eq_refl eq_refl eq_refl).
Defined.

Lemma player_access_routing_witness :
  let r := Auth.mkPlayerResponses (Auth.authData (Some "anon-2"%string)) "" None in
  let b := Auth.mkBackend None [] [] in
  let b' := Auth.handlePlayerAccess r b in
  Auth.auth_user b = None
  /\ Auth.sessions b' = [Auth.mkSessionRow "anon-2" "PLAYER_DIRECT" "player" None]
  /\ Index.render (Index.checkAuth true b' Index.initial).1
     = Index.ShowPlayerDashboard "anon-2".
Proof.
  intros r b b'.
  assert (Hout : Auth.auth_user b = None) by reflexivity.
  split; [exact Hout|].
  destruct (player_access_routing r b true Hout) as (_ & _ & Hok).
  - intros user old _ [].
  - destruct (Hok "anon-2"%string eq_refl eq_refl) as [Hrows Hview].
    split; [exact Hrows|]. exact (Hview eq_refl eq_refl).
Defined.

(** ** The screenshot gallery *)
Section Gallery.

Import ScreenshotGallery.

(** The name shown for a team is never empty. *)
Lemma getTeamName_nonempty (teams : list Team) (teamId : string) :
  Js.str_falsy (getTeamName teams teamId) = false.
Proof.
  unfold getTeamName.
  destruct (List.find _ teams) as [t|]; [|reflexivity].
  destruct (Js.str_falsy (t_name t)) eqn:Hname; [reflexivity|exact Hname].
Qed.

(** The group of a team name and a day after one more screenshot. *)
Lemma addToGroup_lookup (teams : list Team)
    (grouped : gmap string (gmap Z (list Screenshot))) (x : Screenshot)
    (teamName : string) (d : Z) :
  (forall n, grouped !! n <> Some ∅) ->
  (forall n days d', grouped !! n = Some days -> days !! d' <> Some []) ->
  let grouped' := addToGroup teams grouped x in
  (forall n, grouped' !! n <> Some ∅)
  /\ (forall n days d', grouped' !! n = Some days -> days !! d' <> Some [])
  /\ (grouped' !! teamName ≫= (.!! d)
      = if decide (getTeamName teams (team_id x) = teamName /\ day x = d)
        then Some (default [] (grouped !! teamName ≫= (.!! d)) ++ [x])
        else grouped !! teamName ≫= (.!! d)).
Proof.
  intros Hne Hne2 grouped'. subst grouped'. unfold addToGroup.
  set (name := getTeamName teams (team_id x)).
  set (g1 := match grouped !! name with None => <[name:=∅]> grouped | Some _ => grouped end).
  set (days0 := default ∅ (grouped !! name)).
  assert (Hg1 : g1 !! name = Some days0).
  { subst g1 days0. destruct (grouped !! name) eqn:Hn; [exact Hn|]. apply lookup_insert_eq. }
  rewrite Hg1. change (default ∅ (Some days0)) with days0.
  set (days1 := match days0 !! day x with None => <[day x:=[]]> days0 | Some _ => days0 end).
  assert (Hd1 : default [] (days1 !! day x) = default [] (days0 !! day x)).
  { subst days1. destruct (days0 !! day x) eqn:Hd; [by rewrite Hd|].
    by rewrite lookup_insert_eq. }
  rewrite Hd1.
  assert (Hother : forall d', d' <> day x -> days1 !! d' = days0 !! d').
  { intros d' Hd'. subst days1. destruct (days0 !! day x); [reflexivity|].
    by rewrite lookup_insert_ne. }
  assert (Hold : forall n, n <> name -> g1 !! n = grouped !! n).
  { intros n Hn. subst g1. destruct (grouped !! name); [reflexivity|].
    by rewrite lookup_insert_ne. }
  split; [|split].
  - intros n Hn. destruct (decide (n = name)) as [->|Hneq].
    + rewrite lookup_insert_eq in Hn. injection Hn as Hn.
      apply (f_equal (fun m => m !! day x)) in Hn.
      rewrite lookup_insert_eq, lookup_empty in Hn. discriminate.
    + rewrite lookup_insert_ne, Hold in Hn by done. by apply (Hne n).
  - intros n days d' Hn Hd'. destruct (decide (n = name)) as [->|Hneq].
    + rewrite lookup_insert_eq in Hn. injection Hn as <-.
      destruct (decide (d' = day x)) as [->|Hdne].
      * rewrite lookup_insert_eq in Hd'. injection Hd' as Hd'.
        by destruct (default [] (days0 !! day x)).
      * rewrite lookup_insert_ne, Hother in Hd' by done.
        subst days0. destruct (grouped !! name) as [days|] eqn:Hg; cbn in Hd'.
        -- by apply (Hne2 name days d').
        -- by rewrite lookup_empty in Hd'.
    + rewrite lookup_insert_ne, Hold in Hn by done. by apply (Hne2 n days d').
  - destruct (decide (teamName = name)) as [->|Hneq].
    + rewrite lookup_insert_eq. cbn [mbind option_bind].
      destruct (decide (d = day x)) as [->|Hdne].
      * rewrite lookup_insert_eq, decide_True by done.
        subst days0. by destruct (grouped !! name).
      * rewrite lookup_insert_ne by done. rewrite Hother by done.
        rewrite decide_False by (intros [_ ?]; congruence).
        subst days0. destruct (grouped !! name); [reflexivity|].
        cbn. by rewrite lookup_empty.
    + rewrite lookup_insert_ne by done. rewrite Hold by done.
      rewrite decide_False by (intros [? _]; congruence). reflexivity.
Qed.

(** The groups after a whole list of screenshots, starting from [grouped]. *)
Lemma fold_addToGroup_lookup (teams : list Team) (screenshots : list Screenshot)
    (teamName : string) (d : Z) :
  forall grouped : gmap string (gmap Z (list Screenshot)),
  (forall n, grouped !! n <> Some ∅) ->
  (forall n days d', grouped !! n = Some days -> days !! d' <> Some []) ->
  let grouped' := fold_left (addToGroup teams) screenshots grouped in
  let members :=
    filter (fun x => getTeamName teams (team_id x) = teamName /\ day x = d) screenshots in
  (forall n, grouped' !! n <> Some ∅)
  /\ (forall n days d', grouped' !! n = Some days -> days !! d' <> Some [])
  /\ grouped' !! teamName ≫= (.!! d)
     = match members with
       | [] => grouped !! teamName ≫= (.!! d)
       | _ :: _ => Some (default [] (grouped !! teamName ≫= (.!! d)) ++ members)
       end.
Proof.
  induction screenshots as [|x rest IH]; intros grouped Hne Hne2; [by auto|].
  cbn [fold_left].
  destruct (addToGroup_lookup teams grouped x teamName d Hne Hne2) as (Hne' & Hne2' & Hstep).
  destruct (IH (addToGroup teams grouped x) Hne' Hne2') as (Hne'' & Hne2'' & Hrest).
  split; [exact Hne''|]. split; [exact Hne2''|].
  cbn zeta in Hrest. rewrite Hrest, Hstep, filter_cons.
  destruct (decide (getTeamName teams (team_id x) = teamName /\ day x = d)) as [Hx|Hx].
  - destruct (filter _ rest) as [|y l]; [reflexivity|].
    f_equal. set (old := default [] (grouped !! teamName ≫= (.!! d))).
    change (default [] (Some (old ++ [x]))) with (old ++ [x]).
    by rewrite <- app_assoc.
  - reflexivity.
Qed.

(** X14. What [groupByTeamAndDay] builds, for team names that are not
    inherited property names of an object: the group found under a team name
    and a day is exactly the list of the screenshots shown under that name
    with that day, in their order in the list, and there is no group at all
    when there is no such screenshot; a team name is a key exactly when some
    screenshot is shown under it.  So every screenshot is in one group, and
    no group and no team entry is empty. *)
Theorem gallery_groups (teams : list Team) (screenshots : list Screenshot)
    (teamName : string) (d : Z) :
  Forall (fun x => ~ In (getTeamName teams (team_id x)) Object_prototype_keys)
    screenshots ->
  let grouped := groupByTeamAndDay teams screenshots in
  let members :=
    filter (fun x => getTeamName teams (team_id x) = teamName /\ day x = d) screenshots in
  grouped !! teamName ≫= (.!! d)
  = match members with
    | [] => None
    | _ :: _ => Some members
    end
  /\ (grouped !! teamName = None
      <-> forall x, In x screenshots -> getTeamName teams (team_id x) <> teamName).
Proof.
  intros _ grouped members.
  assert (Hinit1 : forall n, (∅ : gmap string (gmap Z (list Screenshot))) !! n <> Some ∅)
    by (intros n; by rewrite lookup_empty).
  assert (Hinit2 : forall n days d',
             (∅ : gmap string (gmap Z (list Screenshot))) !! n = Some days ->
             days !! d' <> Some [])
    by (intros n days d'; by rewrite lookup_empty).
  assert (Hat : forall d',
             grouped !! teamName ≫= (.!! d')
             = match filter (fun x => getTeamName teams (team_id x) = teamName /\ day x = d')
                       screenshots with
               | [] => None
               | y :: l => Some (y :: l)
               end).
  { intros d'.
    destruct (fold_addToGroup_lookup teams screenshots teamName d' ∅ Hinit1 Hinit2)
      as (_ & _ & Hlookup).
    unfold grouped, groupByTeamAndDay. rewrite Hlookup, lookup_empty.
    by destruct (filter (fun x => getTeamName teams (team_id x) = teamName /\ day x = d')
                  screenshots). }
  split; [rewrite Hat; subst members;
          by destruct (filter (fun x => getTeamName teams (team_id x) = teamName /\ day x = d)
                         screenshots)|].
  clear members.
  destruct (fold_addToGroup_lookup teams screenshots teamName d ∅ Hinit1 Hinit2)
    as (Hne & _ & _).
  fold (groupByTeamAndDay teams screenshots) in Hne. fold grouped in Hne.
  split.
  - intros Hnone x Hx Hname.
    pose proof (Hat (day x)) as Hday. rewrite Hnone in Hday. cbn in Hday.
    assert (Hin : x ∈ filter (fun y => getTeamName teams (team_id y) = teamName
                                          /\ day y = day x) screenshots).
    { apply list_elem_of_filter. split; [by split|by apply list_elem_of_In]. }
    destruct (filter _ screenshots); [by apply not_elem_of_nil in Hin|discriminate].
  - intros Hnobody.
    destruct (grouped !! teamName) as [days|] eqn:Hdays; [exfalso|reflexivity].
    assert (Hnonempty : days <> ∅) by (intros ->; by apply (Hne teamName)).
    apply map_choose in Hnonempty as (d' & l & Hl).
    pose proof (Hat d') as Hday. cbn in Hday. rewrite Hl in Hday.
    destruct (filter _ screenshots) as [|y l'] eqn:Hfilter; [discriminate|].
    assert (Hy : y ∈ filter (fun x => getTeamName teams (team_id x) = teamName
                                         /\ day x = d') screenshots)
      by (rewrite Hfilter; left).
    apply list_elem_of_filter in Hy as [[Hname _] Hin].
    apply (Hnobody y); [by apply list_elem_of_In|exact Hname].
Qed.

(** Splitting at a slash splits the list of segments. *)
Lemma split_slash_from_app (a b : string) :
  forall acc, split_slash_from acc (a +:+ ("/" +:+ b))
              = split_slash_from acc a ++ split_slash_from EmptyString b.
Proof.
  induction a as [|c a IH]; intros acc; [reflexivity|].
  rewrite append_cons. cbn [split_slash_from].
  destruct (String.eqb (String c EmptyString) "/").
  - by rewrite IH.
  - apply IH.
Qed.

(** There is always a first segment. *)
Lemma split_slash_from_cons (s : string) :
  forall acc, exists first rest, split_slash_from acc s = first :: rest.
Proof.
  induction s as [|c s IH]; intros acc; [by eexists _, _|].
  cbn [split_slash_from].
  destruct (String.eqb (String c EmptyString) "/"); [by eexists _, _|apply IH].
Qed.

(** Joining the segments gives the text back. *)
Lemma join_split_slash (s : string) :
  forall acc, join_slash (split_slash_from acc s) = acc +:+ s.
Proof.
  induction s as [|c s IH]; intros acc.
  - cbn. by rewrite append_empty.
  - cbn [split_slash_from].
    destruct (String.eqb_spec (String c EmptyString) "/") as [Hc|_].
    + injection Hc as ->.
      destruct (split_slash_from_cons s EmptyString) as (first & rest & Hsplit).
      pose proof (IH EmptyString) as Hjoin. rewrite Hsplit in Hjoin |- *.
      change (join_slash (acc :: first :: rest))
        with (acc +:+ "/" +:+ join_slash (first :: rest)).
      rewrite Hjoin. reflexivity.
    + rewrite IH. symmetry. apply append_snoc.
Qed.

(** The position of the first occurrence. *)
Lemma indexOf_first (x : string) (before after : list string) :
  ~ In x before ->
  indexOf (before ++ x :: after) x = Z.of_nat (length before).
Proof.
  induction before as [|part before IH]; intros Hnot.
  - cbn. by rewrite String.eqb_refl.
  - cbn [app indexOf length].
    destruct (String.eqb_spec part x) as [->|_]; [destruct Hnot; by left|].
    rewrite IH by (intros Hin; apply Hnot; by right).
    destruct (Z.ltb_spec (Z.of_nat (length before)) 0); lia.
Qed.

Lemma indexOf_absent (x : string) (parts : list string) :
  ~ In x parts -> indexOf parts x = -1.
Proof.
  induction parts as [|part parts IH]; intros Hnot; [reflexivity|].
  cbn [indexOf].
  destruct (String.eqb_spec part x) as [->|_]; [destruct Hnot; by left|].
  rewrite IH by (intros Hin; apply Hnot; by right). reflexivity.
Qed.

(** X15. The path a deletion removes from the bucket: for a public URL made
    of a base without a segment "match-screenshots", that segment, and the
    stored path, the extracted path is the stored path, slashes included;
    for a URL without such a segment the extracted path is the whole URL. *)
Theorem filePathOf_round_trip (base path : string) :
  ~ In "match-screenshots"%string (split_slash base) ->
  filePathOf (base +:+ "/match-screenshots/" +:+ path) = path
  /\ filePathOf base = base.
Proof.
  intros Hbase. split.
  - unfold filePathOf, split_slash.
    change ("/match-screenshots/" +:+ path)
      with ("/" +:+ ("match-screenshots" +:+ ("/" +:+ path))).
    rewrite split_slash_from_app, split_slash_from_app.
    change (split_slash_from EmptyString "match-screenshots")
      with ["match-screenshots"%string].
    cbn [app].
    rewrite indexOf_first by exact Hbase.
    replace (Z.to_nat (Z.of_nat (length (split_slash_from EmptyString base)) + 1))
      with (length (split_slash_from EmptyString base) + 1)%nat by lia.
    rewrite <- drop_drop, drop_app_length. cbn [drop].
    apply join_split_slash.
  - unfold filePathOf. rewrite indexOf_absent by exact Hbase.
    cbn [Z.add Z.to_nat drop]. apply join_split_slash.
Qed.

(** X16. Deleting a screenshot: a visitor who is not an admin changes
    nothing.  For an admin the file at the extracted path leaves the bucket
    exactly when the storage call succeeds, and the rows with the given id
    leave the table exactly when the table call succeeds, the two being
    independent: a failed storage removal does not stop the row from being
    deleted (the image stays behind), and a failed row deletion leaves the
    row in place after its image may already be gone.  Other files and other
    rows are never touched, and there is one toast, of success exactly when
    the row deletion succeeded. *)
Theorem delete_screenshot_outcomes (isAdmin : bool) (screenshotId screenshotUrl : string)
    (r : ScreenshotGallery.Responses) (b : Backend) :
  let b' := handleDeleteScreenshot isAdmin screenshotId screenshotUrl r b in
  (isAdmin = false -> b' = b)
  /\ (isAdmin = true ->
      (forall name,
          bucket b' !! name
          = if storage_ok r && bool_decide (name = filePathOf screenshotUrl)
            then None else bucket b !! name)
      /\ (forall row,
            In row (table b')
            <-> In row (table b) /\ (db_ok r = false \/ id row <> screenshotId))
      /\ toasts b'
         = toasts b ++ [if db_ok r then toast_success "Screenshot deleted"
                        else toast_error "Failed to delete screenshot"]).
Proof.
  intros b'. subst b'. unfold handleDeleteScreenshot. split.
  - by intros ->.
  - intros ->. cbn [negb].
    split; [|split].
    + intros name. destruct (storage_ok r), (db_ok r); cbn [negb bucket andb];
        try reflexivity; case_bool_decide as Hname;
        by rewrite ?Hname, ?lookup_delete_eq, ?lookup_delete_ne.
    + intros row. destruct (storage_ok r), (db_ok r); cbn [negb table];
        rewrite ?filter_In, ?negb_true_iff; try (split; [intros ?; by auto|by intros [? _]]);
        (split; intros [Hin Hid]; (split; [exact Hin|]);
         [right; by apply String.eqb_neq
         |destruct Hid as [?|Hid]; [discriminate|by apply String.eqb_neq]]).
    + by destruct (storage_ok r), (db_ok r).
Qed.

End Gallery.

Lemma gallery_groups_witness :
  let teams := [ScreenshotGallery.mkTeam "t1" "Alpha" None;
                ScreenshotGallery.mkTeam "t2" "" None] in
  let shot (i t : string) (d : Z) :=
    ScreenshotGallery.mkScreenshot i t "x.png" (Some 1) (Some 0) (Some 10) d "" in
  let screenshots := [shot "a" "t1" 1; shot "b" "t2" 1; shot "c" "t1" 2; shot "d" "t1" 1] in
  Forall (fun x => ~ In (ScreenshotGallery.getTeamName teams (ScreenshotGallery.team_id x))
                       Object_prototype_keys) screenshots
  /\ ScreenshotGallery.groupByTeamAndDay teams screenshots !! "Alpha"%string ≫= (.!! 1)
     = Some [shot "a" "t1" 1; shot "d" "t1" 1]
  /\ ScreenshotGallery.groupByTeamAndDay teams screenshots !! "Unknown Team"%string ≫= (.!! 1)
     = Some [shot "b" "t2" 1].
Proof.
  intros teams shot screenshots.
  assert (Hnames : Forall (fun x => ~ In (ScreenshotGallery.getTeamName teams
                                             (ScreenshotGallery.team_id x))
                                         Object_prototype_keys) screenshots).
  { repeat constructor; vm_compute; intros H;
      repeat (destruct H as [H|H]; [discriminate H|]); exact H. }
  split; [exact Hnames|]. split.
  - rewrite (proj1 (gallery_groups teams screenshots "Alpha" 1 Hnames)). reflexivity.
  - rewrite (proj1 (gallery_groups teams screenshots "Unknown Team" 1 Hnames)). reflexivity.
Defined.

Lemma filePathOf_round_trip_witness :
  let base := "https://abc.supabase.co/storage/v1/object/public"%string in
  ~ In "match-screenshots"%string (ScreenshotGallery.split_slash base)
  /\ ScreenshotGallery.filePathOf (base +:+ "/match-screenshots/" +:+ "u1/1700_0.png")
     = "u1/1700_0.png"%string.
Proof.
  intros base.
  assert (Hbase : ~ In "match-screenshots"%string (ScreenshotGallery.split_slash base)).
  { vm_compute. intros H. repeat (destruct H as [H|H]; [discriminate H|]). exact H. }
  split; [exact Hbase|].
  exact (proj1 (filePathOf_round_trip base "u1/1700_0.png" Hbase)).
Defined.

Lemma delete_screenshot_outcomes_witness :
  let row := ScreenshotGallery.mkScreenshot "s1" "t1" "x/match-screenshots/u1/1_0.png"
               (Some 1) (Some 0) (Some 10) 1 "" in
  let b := ScreenshotGallery.mkBackend {[ "u1/1_0.png"%string := Sample.shot ]} [row] [] in
  let b' := ScreenshotGallery.handleDeleteScreenshot true "s1"
              "x/match-screenshots/u1/1_0.png"
              (ScreenshotGallery.mkResponses false true) b in
  true = true
  /\ ScreenshotGallery.bucket b' !! "u1/1_0.png"%string = Some Sample.shot
  /\ ~ In row (ScreenshotGallery.table b').
Proof.
  intros row b b'.
  destruct (delete_screenshot_outcomes true "s1" "x/match-screenshots/u1/1_0.png"
              (ScreenshotGallery.mkResponses false true) b) as [_ Hadmin].
  destruct (Hadmin eq_refl) as (Hbucket & Htable & _).
  split; [reflexivity|]. split.
  - fold b'. rewrite Hbucket. reflexivity.
  - intros Hin. apply (Htable row) in Hin.
    destruct Hin as [_ [Hdb|Hid]]; [discriminate|by apply Hid].
Defined.

(** ** The tournament selection of the admin dashboard *)
Section TournamentSelection.

Import AdminDashboard.

Lemma existsb_id (data : list Tournament) (x : string) :
  existsb (fun t => String.eqb (tournament_id t) x) data = true
  <-> In x (map tournament_id data).
Proof.
  rewrite existsb_exists, in_map_iff. split.
  - intros (t & Hin & Heq). apply String.eqb_eq in Heq. by exists t.
  - intros (t & Heq & Hin). exists t. split; [exact Hin|]. by apply String.eqb_eq.
Qed.

(** X17. After a refresh of the tournaments the selection is always valid:
    a failed query changes nothing; otherwise the list is the fetched one,
    the selection is empty when there is no tournament, and it is the id of a
    fetched tournament when there is one: the previous selection if it is
    still there, the first tournament if the previous one is empty or
    gone. *)
Theorem tournament_selection_valid (resp : TournamentsResponse) (st : Selection) :
  let st' := refreshTournaments resp st in
  (resp = tournamentsError -> st' = st)
  /\ (forall data,
        resp = tournamentsData data ->
        tournaments st' = default [] data
        /\ (default [] data = [] -> selectedTournament st' = ""%string)
        /\ (default [] data <> [] ->
            In (selectedTournament st') (map tournament_id (default [] data)))
        /\ (Js.str_falsy (selectedTournament st) = false ->
            In (selectedTournament st) (map tournament_id (default [] data)) ->
            selectedTournament st' = selectedTournament st)
        /\ (forall first rest,
              data = Some (first :: rest) ->
              Js.str_falsy (selectedTournament st) = true
              \/ ~ In (selectedTournament st) (map tournament_id (first :: rest)) ->
              selectedTournament st' = tournament_id first)).
Proof.
  intros st'. subst st'. unfold refreshTournaments, fetchTournaments.
  split; [by intros ->|].
  intros data ->.
  destruct data as [[|first rest]|]; cbn [default tournaments selectedTournament].
  - split; [reflexivity|]. split; [reflexivity|]. split; [done|].
    split; [by intros _ []|]. by intros f r [=].
  - set (data := first :: rest).
    destruct (Js.str_falsy (selectedTournament st)) eqn:Hempty; cbn [orb].
    + cbn [tournaments selectedTournament].
      split; [reflexivity|]. split; [done|]. split; [by intros _; left|].
      split; [done|]. by intros f r [= <- <-] _.
    + destruct (existsb _ data) eqn:Hex; cbn [negb tournaments selectedTournament].
      * apply existsb_id in Hex.
        split; [reflexivity|]. split; [done|]. split; [by intros _|].
        split; [done|].
        intros f r [= <- <-] [?|Hnot]; [discriminate|by destruct Hnot].
      * split; [reflexivity|]. split; [done|]. split; [by intros _; left|].
        split.
        -- intros _ Hin. apply existsb_id in Hin. cbv [Datatypes.id] in Hin. congruence.
        -- by intros f r [= <- <-] _.
  - split; [reflexivity|]. split; [reflexivity|]. split; [done|].
    split; [by intros _ []|]. by intros f r [=].
Qed.

(** X18. Selecting a tournament from the manager: the fetch that follows
    still sees the previous selection.  When the previous selection is still
    among the fetched tournaments the requested id is kept as it is (empty
    for a null id, and unchecked against the fetched list); when the previous
    selection is empty or gone the first fetched tournament is selected,
    whatever id was requested; with no tournament the selection is empty. *)
Theorem tournament_select_sees_previous (id : option string)
    (data : option (list Tournament)) (st : Selection) :
  let st' := onTournamentSelect id (tournamentsData data) st in
  let previous := selectedTournament st in
  (default [] data = [] -> selectedTournament st' = ""%string)
  /\ (Js.str_falsy previous = false ->
      In previous (map tournament_id (default [] data)) ->
      selectedTournament st' = default ""%string id)
  /\ (forall first rest,
        data = Some (first :: rest) ->
        Js.str_falsy previous = true
        \/ ~ In previous (map tournament_id (first :: rest)) ->
        selectedTournament st' = tournament_id first).
Proof.
  intros st' previous. subst st' previous. unfold onTournamentSelect, fetchTournaments.
  destruct data as [[|first rest]|]; cbn [default tournaments selectedTournament].
  - split; [reflexivity|]. split; [by intros _ []|]. by intros f r [=].
  - set (data := first :: rest).
    destruct (Js.str_falsy (selectedTournament st)) eqn:Hempty; cbn [orb].
    + cbn [selectedTournament]. split; [done|]. split; [done|].
      by intros f r [= <- <-] _.
    + destruct (existsb _ data) eqn:Hex; cbn [negb tournaments selectedTournament].
      * apply existsb_id in Hex. split; [done|]. split; [done|].
        intros f r [= <- <-] [?|Hnot]; [discriminate|by destruct Hnot].
      * split; [done|]. split.
        -- intros _ Hin. apply existsb_id in Hin. cbv [Datatypes.id] in Hin. congruence.
        -- by intros f r [= <- <-] _.
  - split; [reflexivity|]. split; [by intros _ []|]. by intros f r [=].
Qed.

End TournamentSelection.

(** ** The admin's edit of a screenshot *)
Section Edit.

Import ScreenshotVerification.

(** X19. Saving an edit touches one row and three columns: when
    [handleUpdate] succeeds on a selected row, the table keeps its length,
    every other row is as it was, and the selected row has the placement and
    kills of the dialog while its team, player, day, image and analysis time
    are as before.  When the backend refuses the update there is no new
    table. *)
Theorem edit_changes_one_row (i : nat) (editPlacement editKills : Z)
    (accepted : bool) (tbl : list MatchScreenshot) (r : MatchScreenshot) :
  tbl !! i = Some r ->
  (accepted = false ->
   handleUpdate (Some i) editPlacement editKills accepted tbl = None)
  /\ (forall tbl',
        handleUpdate (Some i) editPlacement editKills accepted tbl = Some tbl' ->
        length tbl' = length tbl
        /\ (forall j, j <> i -> tbl' !! j = tbl !! j)
        /\ exists r',
             tbl' !! i = Some r'
             /\ placement r' = Some editPlacement
             /\ kills r' = Some editKills
             /\ team_id r' = team_id r
             /\ player_id r' = player_id r
             /\ day r' = day r
             /\ screenshot_url r' = screenshot_url r
             /\ analyzed_at r' = analyzed_at r).
Proof.
  intros Hrow. unfold handleUpdate. rewrite Hrow. unfold Migration.update. split.
  - by intros ->.
  - intros tbl' Hupd.
    destruct (accepted && _); [|discriminate]. injection Hupd as <-.
    split; [apply length_insert|].
    split; [intros j Hj; by apply list_lookup_insert_ne|].
    exists (edited editPlacement editKills r).
    split; [|by repeat split].
    apply list_lookup_insert_eq. by eapply lookup_lt_Some.
Qed.

(** X20. Opening the editor on a row and saving without touching anything
    is not always neutral: the dialog opens with [placement || 1] and
    [kills || 0], so a row whose placement is null or 0 is saved as a first
    place and null kills are saved as 0, while a row with a non-zero
    placement and a kill count keeps both. *)
Theorem untouched_edit_saves_defaults (i : nat) (tbl : list MatchScreenshot)
    (r : MatchScreenshot) :
  tbl !! i = Some r ->
  Migration.day_check (day r) = true ->
  exists r',
    handleUpdate (Some i) (handleEdit r).1 (handleEdit r).2 true tbl
    = Some (<[i := r']> tbl)
    /\ (placement r = None \/ placement r = Some 0 -> placement r' = Some 1)
    /\ (forall p, placement r = Some p -> p <> 0 -> placement r' = Some p)
    /\ kills r' = Some (default 0 (kills r)).
Proof.
  intros Hrow Hday.
  exists (edited (handleEdit r).1 (handleEdit r).2 r).
  split; [|split; [|split]].
  - unfold handleUpdate. rewrite Hrow. unfold Migration.update.
    cbn [edited day andb]. by rewrite Hday.
  - unfold handleEdit. cbn [edited placement fst]. by intros [-> | ->].
  - intros p Hp Hne. unfold handleEdit. cbn [edited placement fst]. rewrite Hp.
    unfold Js.truthy. by destruct (Z.eqb_spec p 0).
  - unfold handleEdit. cbn [edited kills snd]. by rewrite or0_default.
Qed.

End Edit.

Lemma edit_changes_one_row_witness :
  let tbl := [Sample.row_A; Sample.row_A] in
  tbl !! 1%nat = Some Sample.row_A
  /\ ScreenshotVerification.handleUpdate (Some 1%nat) 2 4 false tbl = None.
Proof.
  intros tbl.
  assert (Hrow : tbl !! 1%nat = Some Sample.row_A) by reflexivity.
  split; [exact Hrow|].
  exact (proj1 (edit_changes_one_row 1 2 4 false tbl Sample.row_A Hrow) eq_refl).
Defined.

Lemma untouched_edit_saves_defaults_witness :
  let r := mkMatchScreenshot "teamA" "u1" 2 "x.png" None None None "" in
  [r] !! 0%nat = Some r
  /\ Migration.day_check (day r) = true
  /\ exists r', placement r' = Some 1 /\ kills r' = Some 0.
Proof.
  intros r.
  assert (Hrow : [r] !! 0%nat = Some r) by reflexivity.
  assert (Hday : Migration.day_check (day r) = true) by reflexivity.
  split; [exact Hrow|]. split; [exact Hday|].
  destruct (untouched_edit_saves_defaults 0 [r] r Hrow Hday) as (r' & _ & Hnull & _ & Hkills).
  exists r'. split; [apply Hnull; by left|exact Hkills].
Defined.

(** ** Adding a team *)
Section AddTeam.

Import TeamManager.

Variable trim : string -> string.
Variable getPublicUrl : string -> string.

(** X21. Adding a team: a row is added to [teams] only when a tournament is
    selected, the trimmed name is not empty, the logo (if one was chosen) was
    stored, and the insert succeeded; the row then carries the trimmed name,
    the selected tournament, and the public URL of the stored logo or no
    logo, and the form is cleared.  In every other case [teams] and the form
    are as they were.  No stored logo is ever removed, so a logo stored
    before a failed insert stays in the bucket without a team. *)
Theorem add_team_outcomes (f : Form) (r : TeamManager.Responses) (b : Backend) :
  let res := handleAddTeam trim getPublicUrl f r b in
  logos b ⊆ logos res.1
  /\ ((teams res.1 = teams b /\ res.2 = f)
      \/ (Js.str_falsy (selectedTournament f) = false
          /\ Js.str_falsy (trim (newTeamName f)) = false
          /\ insert_ok r = true
          /\ res.2 = mkForm (selectedTournament f) "" None
          /\ exists logoUrl,
               teams res.1
               = teams b ++ [mkTeamInsert (trim (newTeamName f)) (selectedTournament f) logoUrl]
               /\ match logoFile f with
                  | None => logoUrl = None /\ logos res.1 = logos b
                  | Some logo =>
                      logoUrl = Some (getPublicUrl (filePathOf f logo r))
                      /\ logos b !! filePathOf f logo r = None
                      /\ logos res.1 !! filePathOf f logo r = Some logo
                  end))
  /\ (forall logo,
        logoFile f = Some logo ->
        Js.str_falsy (selectedTournament f) = false ->
        Js.str_falsy (trim (newTeamName f)) = false ->
        TeamManager.upload_ok r = true ->
        logos b !! filePathOf f logo r = None ->
        TeamManager.insert_ok r = false ->
        teams res.1 = teams b
        /\ logos res.1 !! filePathOf f logo r = Some logo).
Proof.
  intros res. subst res. unfold handleAddTeam.
  destruct (Js.str_falsy (selectedTournament f)) eqn:Htour.
  { cbn. split; [done|]. split; [by left|]. intros; discriminate. }
  destruct (Js.str_falsy (trim (newTeamName f))) eqn:Hname.
  { cbn. split; [done|]. split; [by left|]. intros; discriminate. }
  destruct (logoFile f) as [logo|] eqn:Hlogo.
  - destruct (storage_put _ _ _ _) as [stored|] eqn:Hput.
    + apply storage_put_Some in Hput as (Hup & Hfree & ->).
      unfold createTeam. destruct (insert_ok r) eqn:Hins; cbn.
      * split; [by apply insert_subseteq|]. split.
        -- right. repeat split; auto. eexists. split; [reflexivity|].
           repeat split; auto. apply lookup_insert_eq.
        -- intros; discriminate.
      * split; [by apply insert_subseteq|]. split; [by left|].
        intros logo' [= <-] _ _ _ _ _. split; [reflexivity|apply lookup_insert_eq].
    + cbn. split; [done|]. split; [by left|].
      intros logo' [= <-] _ _ Hup Hfree _. exfalso.
      unfold storage_put in Hput. rewrite Hup in Hput.
      by rewrite bool_decide_eq_true_2 in Hput by exact Hfree.
  - unfold createTeam. destruct (insert_ok r) eqn:Hins; cbn.
    + split; [done|]. split; [|intros; discriminate].
      right. repeat split; auto. by eexists.
    + split; [done|]. split; [by left|]. intros; discriminate.
Qed.

End AddTeam.

Lemma add_team_outcomes_witness :
  let logo := mkFile "crest.png" "image/png" in
  let f := TeamManager.mkForm "tour-1" " Alpha " (Some logo) in
  let r := TeamManager.mkResponses 1700 "k3x9" true false in
  let b := TeamManager.mkBackend ∅ [] [] in
  let res := TeamManager.handleAddTeam Auth.trim_ascii Sample.url f r b in
  TeamManager.logoFile f = Some logo
  /\ TeamManager.upload_ok r = true
  /\ TeamManager.insert_ok r = false
  /\ TeamManager.teams res.1 = []
  /\ TeamManager.logos res.1 !! "tour-1/1700-k3x9.png"%string = Some logo.
Proof.
  intros logo f r b res.
  destruct (add_team_outcomes Auth.trim_ascii Sample.url f r b) as (_ & _ & Horphan).
  destruct (Horphan logo eq_refl eq_refl eq_refl eq_refl eq_refl eq_refl) as [Hteams Hlogo].
  split; [reflexivity|]. split; [reflexivity|]. split; [reflexivity|].
  split; [exact Hteams|exact Hlogo].
Defined.

Lemma tournament_selection_valid_witness :
  let t1 := AdminDashboard.mkTournament "t1" "Spring Cup" in
  let t2 := AdminDashboard.mkTournament "t2" "Summer Cup" in
  let st := AdminDashboard.mkSelection [t1] "t1" in
  let resp := AdminDashboard.tournamentsData (Some [t2]) in
  ~ In (AdminDashboard.selectedTournament st) (map AdminDashboard.tournament_id [t2])
  /\ AdminDashboard.selectedTournament (AdminDashboard.refreshTournaments resp st)
     = "t2"%string.
Proof.
  intros t1 t2 st resp.
  assert (Hgone : ~ In (AdminDashboard.selectedTournament st)
                      (map AdminDashboard.tournament_id [t2]))
    by (intros [H|[]]; discriminate H).
  split; [exact Hgone|].
  destruct (tournament_selection_valid resp st) as [_ Hdata].
  destruct (Hdata (Some [t2]) eq_refl) as (_ & _ & _ & _ & Hfirst).
  exact (Hfirst t2 [] eq_refl (or_intror Hgone)).
Defined.

Lemma tournament_select_sees_previous_witness :
  let t1 := AdminDashboard.mkTournament "t1" "Spring Cup" in
  let t2 := AdminDashboard.mkTournament "t2" "Summer Cup" in
  let st := AdminDashboard.mkSelection [t1] "" in
  Js.str_falsy (AdminDashboard.selectedTournament st) = true
  /\ AdminDashboard.selectedTournament
       (AdminDashboard.onTournamentSelect (Some "t1"%string)
          (AdminDashboard.tournamentsData (Some [t2; t1])) st)
     = "t2"%string.
Proof.
  intros t1 t2 st.
  assert (Hempty : Js.str_falsy (AdminDashboard.selectedTournament st) = true) by reflexivity.
  split; [exact Hempty|].
  destruct (tournament_select_sees_previous (Some "t1"%string) (Some [t2; t1]) st)
    as (_ & _ & Hfirst).
  exact (Hfirst t2 [t1] eq_refl (or_introl Hempty)).
Defined.

Lemma upload_only_adds_witness :
  let s := Sample.player 3 in
  let w' := PlayerDashboard.handleFileUpload Sample.url s [Sample.shot] Sample.no_placement
              Sample.empty_world in
  exists new,
    match_screenshots w' = new
    /\ (length new <= 4)%nat
    /\ (length new <= 1)%nat
    /\ (forall row, In row new -> team_id row = "teamA"%string)
    /\ (forall name file, (∅ : gmap string File) !! name = Some file ->
          storage w' !! name = Some file).
Proof.
  exact (upload_only_adds Sample.url (Sample.player 3) [Sample.shot] Sample.no_placement
           Sample.empty_world).
Defined.

Lemma fileNameOf_inj_witness :
  let s := Sample.player 3 in
  let r := Sample.all_fine 0 in
  (date_now r = date_now r /\ 0 = 0
   /\ Js.split_dot_pop "first.png" = Js.split_dot_pop "second.png")
  /\ PlayerDashboard.fileNameOf s 0 (mkFile "first.png" "image/png") r
     = PlayerDashboard.fileNameOf s 0 (mkFile "second.png" "image/png") r.
Proof.
  intros s r.
  assert (Hparts : date_now r = date_now r /\ 0 = 0
                   /\ Js.split_dot_pop "first.png" = Js.split_dot_pop "second.png")
    by (repeat split; reflexivity).
  split; [exact Hparts|].
  exact (proj2 (fileNameOf_inj s 0 0 (mkFile "first.png" "image/png")
                  (mkFile "second.png" "image/png") r r) Hparts).
Defined.
